(** * Mega download bot (src/main.py): a shallow embedding and its properties

    The bot is a Telegram front end to the Mega client library.  Its own
    code is an allow-list check, a prefix test on links, a size formatter,
    a download-then-relay pipeline and a sequential batch loop.

    Text is modelled as [string], holding the UTF-8 bytes of the Python
    [str]; integers are [Z]; the local file system is a finite map from
    paths to contents; every call to an outside collaborator (Telegram,
    Mega, the file system, the clock, the logger) is recorded in a trace
    of events, and its outcome is chosen by an environment that sees the
    history so far. *)

From stdpp Require Import base gmap strings pretty list.
From Stdlib Require Import Ascii ZArith Lia.

Local Open Scope string_scope.
Local Open Scope list_scope.

(** ** Outcomes of a Python call: a value, or a raised exception

    The payload of [Raise] is [str(e)], the only part of an exception the
    program ever looks at. *)

Inductive Outcome (A : Type) : Type :=
| Return (a : A)
| Raise (e : string).
Arguments Return {A} a.
Arguments Raise {A} e.

Definition bind_outcome {A B} (o : Outcome A) (k : A → Outcome B) : Outcome B :=
  match o with
  | Return a => k a
  | Raise e => Raise e
  end.

(** ** Strings *)

Definition NL : string := String (ascii_of_nat 10) "".

(** [s.startswith(prefix)] *)
Fixpoint startswith (s prefix : string) {struct prefix} : bool :=
  match prefix with
  | "" => true
  | String p prefix' =>
      match s with
      | "" => false
      | String c s' => if Ascii.eqb c p then startswith s' prefix' else false
      end
  end.

(** [s.endswith(suffix)] *)
Definition endswith (s suffix : string) : bool :=
  startswith (String.rev s) (String.rev suffix).

Definition slash : ascii := ascii_of_nat 47.

(** [os.path.basename(path)]: what follows the last slash. *)
Fixpoint basename (path : string) : string :=
  match path with
  | "" => ""
  | String c rest =>
      if Ascii.eqb c slash then basename rest
      else if existsb (Ascii.eqb slash) (String.list_ascii_of_string rest) then basename rest
      else path
  end.

(** *** Whitespace, as [str.isspace] sees it

    The white-space code points are U+0009..U+000D, U+001C..U+0020,
    U+0085, U+00A0, U+1680, U+2000..U+200A, U+2028, U+2029, U+202F,
    U+205F and U+3000.  On UTF-8 text they are one, two or three bytes
    long. *)

Definition space1 (a : ascii) : bool :=
  let n := nat_of_ascii a in
  (Nat.leb 9 n && Nat.leb n 13) || (Nat.leb 28 n && Nat.leb n 32).

Definition space2 (a b : ascii) : bool :=
  Nat.eqb (nat_of_ascii a) 194
  && (Nat.eqb (nat_of_ascii b) 133 || Nat.eqb (nat_of_ascii b) 160).

Definition space3 (a b c : ascii) : bool :=
  let x := nat_of_ascii a in
  let y := nat_of_ascii b in
  let z := nat_of_ascii c in
  (Nat.eqb x 225 && Nat.eqb y 154 && Nat.eqb z 128)
  || (Nat.eqb x 226 && Nat.eqb y 128
      && ((Nat.leb 128 z && Nat.leb z 138)
          || Nat.eqb z 168 || Nat.eqb z 169 || Nat.eqb z 175))
  || (Nat.eqb x 226 && Nat.eqb y 129 && Nat.eqb z 159)
  || (Nat.eqb x 227 && Nat.eqb y 128 && Nat.eqb z 128).

(** [s.isspace()] or [s] empty: the text is made of white space only. *)
Fixpoint all_space (s : string) : bool :=
  match s with
  | "" => true
  | String a r1 =>
      if space1 a then all_space r1
      else match r1 with
           | "" => false
           | String b r2 =>
               if space2 a b then all_space r2
               else match r2 with
                    | "" => false
                    | String c r3 => if space3 a b c then all_space r3 else false
                    end
           end
  end.

Fixpoint lstrip (s : string) : string :=
  match s with
  | "" => ""
  | String a r1 =>
      if space1 a then lstrip r1
      else match r1 with
           | "" => s
           | String b r2 =>
               if space2 a b then lstrip r2
               else match r2 with
                    | "" => s
                    | String c r3 => if space3 a b c then lstrip r3 else s
                    end
           end
  end.

Fixpoint rstrip (s : string) : string :=
  match s with
  | "" => ""
  | String a r => if all_space s then "" else String a (rstrip r)
  end.

(** [s.strip()] *)
Definition strip (s : string) : string := rstrip (lstrip s).

(** Truth value of a [str]: empty is false. *)
Definition truthy (s : string) : bool :=
  match s with
  | "" => false
  | _ => true
  end.

(** ** [format_size]

    [size_bytes] starts as an [int] and becomes a [float] at the first
    division.  A binary64 value is written [mant * 2 ^ expo]. *)

Record float := Float { mant : Z; expo : Z }.

Inductive number :=
| Int (n : Z)
| Flt (x : float).

(** [a / b] rounded to the nearest integer, ties to the even one
    ([0 < b], [0 <= a]). *)
Definition round_half_even (a b : Z) : Z :=
  let q := (a / b)%Z in
  let r := (a mod b)%Z in
  if (2 * r <? b)%Z then q
  else if (b <? 2 * r)%Z then (q + 1)%Z
  else if Z.even q then q else (q + 1)%Z.

(** Spacing of the binary64 values around an integer of magnitude [a]:
    53 significant bits are kept. *)
Definition ulp (a : Z) : Z := (2 ^ Z.max 0 (Z.log2 a - 52))%Z.

(** The binary64 value nearest to the integer [a >= 0], ties to even. *)
Definition round53 (a : Z) : Z := (round_half_even a (ulp a) * ulp a)%Z.

(** [float(n)]: rounded to 53 bits, ties to even; [OverflowError] when
    the rounded value does not fit the exponent range. *)
Definition float_of_int (n : Z) : Outcome float :=
  let m := round53 (Z.abs n) in
  if (2 ^ 1024 <=? m)%Z then Raise "int too large to convert to float"
  else Return (Float (Z.sgn n * m) 0).

(** [v < 1024.0]; Python compares an [int] with a [float] exactly. *)
Definition lt_1024 (v : number) : bool :=
  match v with
  | Int n => (n <? 1024)%Z
  | Flt (Float m e) =>
      if (0 <=? e)%Z then (m * 2 ^ e <? 1024)%Z else (m <? 1024 * 2 ^ (- e))%Z
  end.

(** [v / 1024.0]: an [int] is converted first; on a float the division
    by a power of two only lowers the exponent (the values divided here
    are at least 1024, far from the subnormal range). *)
Definition div_1024 (v : number) : Outcome float :=
  match v with
  | Int n => bind_outcome (float_of_int n) (λ x, Return (Float (mant x) (expo x - 10)))
  | Flt x => Return (Float (mant x) (expo x - 10))
  end.

(** The number of hundredths [format(x, ".2f")] shows for [|x|]: the
    conversion is correctly rounded, ties to even. *)
Definition hundredths (x : float) : Z :=
  let a := Z.abs (mant x) in
  if (0 <=? expo x)%Z then (100 * a * 2 ^ expo x)%Z
  else round_half_even (100 * a) (2 ^ (- expo x)).

Definition two_digits (d : Z) : string :=
  if (d <? 10)%Z then "0" +:+ pretty d else pretty d.

Definition render_2f (negative : bool) (h : Z) : string :=
  (if negative then "-" else "") +:+ pretty (h / 100)%Z +:+ "." +:+ two_digits (h mod 100)%Z.

(** What a format specification for floats is applied to: an [int] is
    converted first. *)
Definition to_float (v : number) : Outcome float :=
  match v with
  | Int n => float_of_int n
  | Flt x => Return x
  end.

(** [f"{v:.2f}"] *)
Definition format_2f (v : number) : Outcome string :=
  bind_outcome (to_float v) (λ x, Return (render_2f (mant x <? 0)%Z (hundredths x))).

Fixpoint format_size_loop (units : list string) (size_bytes : number) : Outcome string :=
  match units with
  | [] => bind_outcome (format_2f size_bytes) (λ s, Return (s +:+ " PB"))
  | unit :: units' =>
      if lt_1024 size_bytes
      then bind_outcome (format_2f size_bytes) (λ s, Return (s +:+ " " +:+ unit))
      else bind_outcome (div_1024 size_bytes) (λ x, format_size_loop units' (Flt x))
  end.

Definition format_size (size_bytes : Z) : Outcome string :=
  format_size_loop ["B"; "KB"; "MB"; "GB"; "TB"] (Int size_bytes).

(** The value and the unit [format_size] ends on; its result shows the
    value with two decimals, a blank and the unit. *)
Fixpoint size_parts_loop (units : list string) (size_bytes : number)
    : Outcome (float * string) :=
  match units with
  | [] => bind_outcome (to_float size_bytes) (λ x, Return (x, "PB"))
  | unit :: units' =>
      if lt_1024 size_bytes
      then bind_outcome (to_float size_bytes) (λ x, Return (x, unit))
      else bind_outcome (div_1024 size_bytes) (λ x, size_parts_loop units' (Flt x))
  end.

Definition size_parts (size_bytes : Z) : Outcome (float * string) :=
  size_parts_loop ["B"; "KB"; "MB"; "GB"; "TB"] (Int size_bytes).

Definition show_parts (parts : float * string) : string :=
  render_2f (mant parts.1 <? 0)%Z (hundredths parts.1) +:+ " " +:+ parts.2.

(** The largest integer that [float] accepts. *)
Definition MAX_CONVERTIBLE : Z := (2 ^ 1024 - 2 ^ 970 - 1)%Z.

(** ** Batch list parsing

    Iterating over a text file yields its lines, each with its line
    terminator (the last one may lack it).  [content] is the decoded text
    of the file, newlines already translated. *)

Fixpoint file_lines_from (acc content : string) : list string :=
  match content with
  | "" => match acc with "" => [] | _ => [acc] end
  | String c rest =>
      if Ascii.eqb c (ascii_of_nat 10)
      then (acc +:+ NL) :: file_lines_from "" rest
      else file_lines_from (acc +:+ String c "") rest
  end.

Definition file_lines (content : string) : list string := file_lines_from "" content.

Definition MEGA_PREFIX : string := "https://mega.nz/".

(** [[line.strip() for line in f
      if line.strip() and line.startswith('https://mega.nz/')]] *)
Fixpoint parse_links (lines : list string) : list string :=
  match lines with
  | [] => []
  | line :: rest =>
      if truthy (strip line) && startswith line MEGA_PREFIX
      then strip line :: parse_links rest
      else parse_links rest
  end.

(** ** Configuration *)

Definition BOT_TOKEN : string := "YOUR_BOT_TOKEN_HERE".
Definition AUTHORIZED_USERS : list Z := [123456789%Z].

(** ** The outside world *)

Inductive Event :=
| EvSendMessage (chat_id : Z) (text : string) (parse_mode : option string)
| EvEditText (message : nat) (text : string) (parse_mode : option string)
| EvReplyText (text : string)
| EvReplyDocument (path filename caption : string)
| EvGetFile (file_id : string)
| EvDownloadToDrive (file_id path : string)
| EvGetPublicFileInfo (link : string)
| EvDownloadFromUrl (link dest_path dest_filename : string)
| EvOpen (path mode : string)
| EvRemove (path : string)
| EvSleep (seconds : Z)
| EvLogInfo (msg : string)
| EvLogError (msg : string)
| EvPrint (line : string)
| EvMkdir (path : string)
| EvBuildApplication (token : string)
| EvAddHandler (name : string)
| EvRunPolling.

(** What [get_public_file_info] answers for a link that resolves. *)
Record FileInfo := { info_name : string; info_size : Z }.

(** The collaborators.  Each answer may depend on everything that has
    happened so far ([history]), so the same link can succeed once and
    fail the next time.
    - [telegram history call]: [Some e] when that Telegram call raises [e];
    - [telegram_file file_id]: the bytes behind an uploaded document;
    - [get_public_file_info]: the metadata, [None] for a link that does
      not resolve, or an exception;
    - [download_from_url]: the path the file was saved to together with
      the bytes written there, or an exception (then nothing is written);
    - [read_text bytes]: what reading a file opened in text mode yields
      for these bytes, in the encoding of the platform and with newlines
      translated: the text, or the text of the [UnicodeDecodeError];
    - [no_such_file path]: the text of the [FileNotFoundError] that
      [open] and [os.remove] raise for a missing [path] (the message of
      the system followed by [repr(path)]). *)
Record Env := {
  telegram : list Event → Event → option string;
  telegram_file : string → string;
  get_public_file_info : list Event → string → Outcome (option FileInfo);
  download_from_url : list Event → string → string → string → Outcome (string * string);
  read_text : string → Outcome string;
  no_such_file : string → string
}.

Record World := { fs : gmap string string; trace : list Event }.

Definition record (ev : Event) (w : World) : World :=
  {| fs := fs w; trace := trace w ++ [ev] |}.

Definition record_all (evs : list Event) (w : World) : World :=
  {| fs := fs w; trace := trace w ++ evs |}.

(** A computation reads and changes the world and returns or raises. *)
Definition M (A : Type) : Type := World → Outcome A * World.

Definition ret {A} (a : A) : M A := λ w, (Return a, w).

Definition raise {A} (e : string) : M A := λ w, (Raise e, w).

Definition bind {A B} (m : M A) (k : A → M B) : M B :=
  λ w, match m w with
       | (Return a, w') => k a w'
       | (Raise e, w') => (Raise e, w')
       end.

#[global] Instance M_ret : MRet M := @ret.
#[global] Instance M_bind : MBind M := λ A B k m, bind m k.

(** [try: body except Exception as e: handler(str(e))] *)
Definition try_except {A} (body : M A) (handler : string → M A) : M A :=
  λ w, match body w with
       | (Return a, w') => (Return a, w')
       | (Raise e, w') => handler e w'
       end.

(** A [try] block whose first statement binds a local that the handler
    looks up with ['message' in locals()]. *)
Definition try_except_local {A B} (first : M A) (rest : A → M B)
    (handler : option A → string → M B) : M B :=
  λ w, match first w with
       | (Return a, w') => try_except (rest a) (handler (Some a)) w'
       | (Raise e, w') => handler None e w'
       end.

Definition lift {A} (o : Outcome A) : M A := λ w, (o, w).

Definition emit (ev : Event) : M unit := λ w, (Return tt, record ev w).

(** [repr] of a [str], for text whose characters outside ASCII are
    printable (their bytes are copied): between single quotes, or
    between double quotes when the text holds a single quote and no
    double quote; the enclosing quote and the backslash are escaped with
    a backslash, tab, newline and carriage return are written [\t],
    [\n], [\r], and the other control characters [\xNN]. *)
Definition backslash : ascii := ascii_of_nat 92.
Definition single_quote : ascii := ascii_of_nat 39.
Definition double_quote : ascii := ascii_of_nat 34.

Fixpoint contains (c : ascii) (s : string) : bool :=
  match s with
  | EmptyString => false
  | String a s' => Ascii.eqb a c || contains c s'
  end.

Definition hex_digit (n : nat) : ascii :=
  match String.get n "0123456789abcdef" with
  | Some c => c
  | None => "0"%char
  end.

Definition repr_char (quote c : ascii) : string :=
  let n := nat_of_ascii c in
  if Ascii.eqb c quote || Ascii.eqb c backslash then String backslash (String c "")
  else if Nat.eqb n 9 then String backslash "t"
  else if Nat.eqb n 10 then String backslash "n"
  else if Nat.eqb n 13 then String backslash "r"
  else if Nat.ltb n 32 || Nat.eqb n 127
       then String backslash
              (String "x" (String (hex_digit (n / 16)) (String (hex_digit (n mod 16)) "")))
  else String c "".

Fixpoint repr_chars (quote : ascii) (s : string) : string :=
  match s with
  | EmptyString => ""
  | String c s' => repr_char quote c +:+ repr_chars quote s'
  end.

Definition repr (s : string) : string :=
  let quote := if contains single_quote s && negb (contains double_quote s)
               then double_quote else single_quote in
  String quote (repr_chars quote s +:+ String quote "").

(** The text of [FileNotFoundError] on Linux: the message of the system
    followed by [repr] of the path. *)
Definition errno2 (path : string) : string :=
  "[Errno 2] No such file or directory: " +:+ repr path.

Section Collaborators.

Variable env : Env.

Definition telegram_call (ev : Event) : M unit :=
  λ w, match telegram env (trace w) ev with
       | None => (Return tt, record ev w)
       | Some e => (Raise e, record ev w)
       end.

(** [bot.send_message]: the message object is identified by the position
    of the call in the trace. *)
Definition send_message (chat_id : Z) (text : string) (parse_mode : option string) : M nat :=
  λ w, match telegram_call (EvSendMessage chat_id text parse_mode) w with
       | (Return _, w') => (Return (length (trace w)), w')
       | (Raise e, w') => (Raise e, w')
       end.

Definition edit_text (message : nat) (text : string) (parse_mode : option string) : M unit :=
  telegram_call (EvEditText message text parse_mode).

Definition reply_text (text : string) : M unit :=
  telegram_call (EvReplyText text).

Definition reply_document (path filename caption : string) : M unit :=
  telegram_call (EvReplyDocument path filename caption).

Definition get_file (file_id : string) : M unit :=
  telegram_call (EvGetFile file_id).

Definition download_to_drive (file_id path : string) : M unit :=
  λ w, match telegram env (trace w) (EvDownloadToDrive file_id path) with
       | None => (Return tt, {| fs := <[path := telegram_file env file_id]> (fs w);
                                trace := trace w ++ [EvDownloadToDrive file_id path] |})
       | Some e => (Raise e, record (EvDownloadToDrive file_id path) w)
       end.

Definition mega_get_public_file_info (link : string) : M (option FileInfo) :=
  λ w, (get_public_file_info env (trace w) link, record (EvGetPublicFileInfo link) w).

Definition mega_download_from_url (link dest_path dest_filename : string) : M string :=
  λ w, match download_from_url env (trace w) link dest_path dest_filename with
       | Return (saved, data) =>
           (Return saved, {| fs := <[saved := data]> (fs w);
                             trace := trace w ++ [EvDownloadFromUrl link dest_path dest_filename] |})
       | Raise e => (Raise e, record (EvDownloadFromUrl link dest_path dest_filename) w)
       end.

(** [open(path, mode)]: the bytes of the file, or [FileNotFoundError]. *)
Definition open_file (path mode : string) : M string :=
  λ w, match fs w !! path with
       | Some data => (Return data, record (EvOpen path mode) w)
       | None => (Raise (no_such_file env path), record (EvOpen path mode) w)
       end.

(** [os.remove(path)] *)
Definition os_remove (path : string) : M unit :=
  λ w, match fs w !! path with
       | Some _ => (Return tt, {| fs := delete path (fs w); trace := trace w ++ [EvRemove path] |})
       | None => (Raise (no_such_file env path), record (EvRemove path) w)
       end.

Definition sleep (seconds : Z) : M unit := emit (EvSleep seconds).
Definition logger_info (msg : string) : M unit := emit (EvLogInfo msg).
Definition logger_error (msg : string) : M unit := emit (EvLogError msg).
Definition print (line : string) : M unit := emit (EvPrint line).

End Collaborators.

(** ** The bot *)

Record Bot := { download_dir : string }.

Record Document := {
  mime_type : option string;
  file_name : option string;
  file_id : string
}.

Record Update := {
  effective_user_id : Z;
  effective_chat_id : Z;
  message_text : string;
  message_document : Document
}.

Record Context := { args : list string }.

Definition DENIED : string := "❌ You are not authorized to use this bot.".

Definition USAGE : string :=
  "Please provide a Mega link after the command." +:+ NL
  +:+ "Example: /download https://mega.nz/file/...".

Definition INVALID_LINK : string := "❌ Invalid Mega link or file not found".

Definition processing_text (mega_link : string) : string :=
  "🔍 Processing Mega link..." +:+ NL +:+ "`" +:+ mega_link +:+ "`".

Definition info_text (file_name size_text : string) : string :=
  "📁 File: `" +:+ file_name +:+ "`" +:+ NL
  +:+ "📊 Size: `" +:+ size_text +:+ "`" +:+ NL
  +:+ "⏬ Starting download...".

Definition completed_text (file_name downloaded_file : string) : string :=
  "✅ Download completed!" +:+ NL
  +:+ "📁 File: `" +:+ file_name +:+ "`" +:+ NL
  +:+ "💾 Saved to: `" +:+ downloaded_file +:+ "`".

Definition welcome_text : string :=
  NL
  +:+ "        🤖 Mega Download Bot" +:+ NL
  +:+ "        " +:+ NL
  +:+ "        Send me a Mega.nz public link and I'll download it for you!" +:+ NL
  +:+ "        " +:+ NL
  +:+ "        Supported links:" +:+ NL
  +:+ "        • https://mega.nz/file/..." +:+ NL
  +:+ "        • https://mega.nz/folder/..." +:+ NL
  +:+ "        " +:+ NL
  +:+ "        Commands:" +:+ NL
  +:+ "        /start - Show this help" +:+ NL
  +:+ "        /download [link] - Download from Mega link" +:+ NL
  +:+ "        /batch - Upload a text file with multiple links" +:+ NL
  +:+ "        ".

Definition announce_text (i total : nat) : string :=
  "📥 Downloading " +:+ pretty i +:+ "/" +:+ pretty total +:+ "...".

Definition found_text (total : nat) : string :=
  "Found " +:+ pretty total +:+ " valid Mega links. Starting batch download...".

Definition BATCH_COMPLETED : string := "✅ Batch download completed!".
Definition NO_VALID_LINKS : string := "❌ No valid Mega links found in the file".
Definition NOT_A_TEXT_FILE : string :=
  "Please upload a text file (.txt) containing Mega links".

Section Handlers.

Variable env : Env.
Variable self : Bot.

(** The [except] clause of [download_from_public_link]. *)
Definition download_failed (message : option nat) (e : string) : M (option string) :=
  let error_msg := "❌ Download failed: " +:+ e in
  logger_error error_msg;;
  match message with
  | Some message => edit_text env message error_msg None
  | None => mret ()
  end;;
  mret None.

Definition download_from_public_link (mega_link : string) (chat_id : Z) : M (option string) :=
  try_except_local
    (send_message env chat_id (processing_text mega_link) (Some "Markdown"))
    (λ message,
       file_info ← mega_get_public_file_info env mega_link;
       match file_info with
       | None =>
           edit_text env message INVALID_LINK None;;
           mret None
       | Some file_info =>
           let file_name := info_name file_info in
           let file_size := info_size file_info in
           size_text ← lift (format_size file_size);
           edit_text env message (info_text file_name size_text) (Some "Markdown");;
           downloaded_file ← mega_download_from_url env mega_link (download_dir self) file_name;
           edit_text env message (completed_text file_name downloaded_file) (Some "Markdown");;
           mret (Some downloaded_file)
       end)
    download_failed.

(** The send-back block that follows every download: the source repeats
    it in [download_command], [handle_message] and [handle_document],
    with its own caption and error text in the batch loop.
    [[
      try:
          with open(downloaded_file, 'rb') as file:
              await update.message.reply_document(...)
          os.remove(downloaded_file)
      except Exception as e:
          await update.message.reply_text(error_text(e))
    ]] *)
Definition relay (caption : string → string) (error_text : string → string)
    (downloaded_file : string) : M unit :=
  try_except
    (_ ← open_file env downloaded_file "rb";
     reply_document env downloaded_file (basename downloaded_file)
       (caption (basename downloaded_file));;
     os_remove env downloaded_file)
    (λ e, reply_text env (error_text e)).

(** [if downloaded_file: ...] on an [Optional[str]]. *)
Definition if_downloaded (downloaded_file : option string) (then_ : string → M unit) : M unit :=
  match downloaded_file with
  | Some path => if truthy path then then_ path else mret ()
  | None => mret ()
  end.

Definition single_caption (file : string) : string := "✅ Download completed: " +:+ file.
Definition single_error (e : string) : string := "❌ Error sending file: " +:+ e.

Definition authorized (update : Update) : bool :=
  bool_decide (effective_user_id update ∈ AUTHORIZED_USERS).

Definition start_command (update : Update) (context : Context) : M unit :=
  if negb (authorized update) then reply_text env DENIED
  else reply_text env welcome_text.

Definition download_command (update : Update) (context : Context) : M unit :=
  if negb (authorized update) then reply_text env DENIED
  else match args context with
       | [] => reply_text env USAGE
       | mega_link :: _ =>
           if negb (startswith mega_link MEGA_PREFIX)
           then reply_text env "❌ Please provide a valid Mega.nz link"
           else
             downloaded_file ← download_from_public_link mega_link (effective_chat_id update);
             if_downloaded downloaded_file (relay single_caption single_error)
       end.

Definition handle_message (update : Update) (context : Context) : M unit :=
  if negb (authorized update) then reply_text env DENIED
  else
    let message_text := message_text update in
    if startswith message_text MEGA_PREFIX
    then
      downloaded_file ← download_from_public_link message_text (effective_chat_id update);
      if_downloaded downloaded_file (relay single_caption single_error)
    else reply_text env "Please send a valid Mega.nz public link".

Definition batch_caption (i total : nat) (file : string) : string :=
  "✅ " +:+ pretty i +:+ "/" +:+ pretty total +:+ ": " +:+ file.

Definition batch_error (i : nat) (e : string) : string :=
  "❌ Error sending file " +:+ pretty i +:+ ": " +:+ e.

(** [for i, link in enumerate(links, 1): ...]; [todo] is what is left of
    [links] and [i] the number of its first element. *)
Fixpoint batch_loop (update : Update) (links : list string) (i : nat) (todo : list string)
    : M unit :=
  match todo with
  | [] => mret ()
  | link :: todo' =>
      reply_text env (announce_text i (length links));;
      downloaded_file ← download_from_public_link link (effective_chat_id update);
      if_downloaded downloaded_file
        (relay (batch_caption i (length links)) (batch_error i));;
      sleep 2;;
      batch_loop update links (S i) todo'
  end.

(** [document.mime_type == 'text/plain' or document.file_name.endswith('.txt')] *)
Definition is_text_document (document : Document) : M bool :=
  if bool_decide (mime_type document = Some "text/plain") then mret true
  else match file_name document with
       | Some file_name => mret (endswith file_name ".txt")
       | None => raise "'NoneType' object has no attribute 'endswith'"
       end.

(** What [handle_document] does with the parsed [links], from
    [if not links:] to its last statement. *)
Definition run_batch (update : Update) (links : list string) : M unit :=
  match links with
  | [] => reply_text env NO_VALID_LINKS
  | _ =>
      reply_text env (found_text (length links));;
      batch_loop update links 1 links;;
      reply_text env BATCH_COMPLETED
  end.

Definition temp_file_of (document : Document) : string :=
  "temp_" +:+ file_id document +:+ ".txt".

(** The list is decoded while the comprehension iterates over the open
    file, outside any [try] and before [os.remove(temp_file)]. *)
Definition handle_document (update : Update) (context : Context) : M unit :=
  if negb (authorized update) then reply_text env DENIED
  else
    let document := message_document update in
    is_text ← is_text_document document;
    if is_text : bool
    then
      get_file env (file_id document);;
      let temp_file := temp_file_of document in
      download_to_drive env (file_id document) temp_file;;
      content ← open_file env temp_file "r";
      text ← lift (read_text env content);
      let links := parse_links (file_lines text) in
      os_remove env temp_file;;
      run_batch update links
    else reply_text env NOT_A_TEXT_FILE.

End Handlers.

(** A document the batch branch accepts: declared as plain text, or
    named [*.txt]. *)
Definition text_document (document : Document) : Prop :=
  mime_type document = Some "text/plain"
  ∨ ∃ file_name', file_name document = Some file_name' ∧ endswith file_name' ".txt" = true.

(** ** Start-up *)

Definition PLACEHOLDER_TOKEN : string := "YOUR_BOT_TOKEN_HERE".

(** [TelegramMegaDownloadBot(download_dir)] *)
Definition init (download_dir : string) : M Bot :=
  emit (EvMkdir download_dir);;
  logger_info "Telegram Mega Download Bot initialized";;
  mret {| download_dir := download_dir |}.

Definition run_bot (self : Bot) (token : string) : M unit :=
  emit (EvBuildApplication token);;
  emit (EvAddHandler "start");;
  emit (EvAddHandler "download");;
  emit (EvAddHandler "handle_message");;
  emit (EvAddHandler "handle_document");;
  logger_info "Bot is running...";;
  emit EvRunPolling.

(** The [__main__] block, for a configured token. *)
Definition main_with (BOT_TOKEN : string) : M unit :=
  if String.eqb BOT_TOKEN PLACEHOLDER_TOKEN
  then
    print "❌ Please set your bot token in the BOT_TOKEN variable";;
    print "1. Create a bot with @BotFather on Telegram";;
    print "2. Copy the token and replace 'YOUR_BOT_TOKEN_HERE'";;
    print "3. Add your user ID to AUTHORIZED_USERS list"
  else
    bot ← init "downloads";
    run_bot bot BOT_TOKEN.

(** The file as committed assigns the placeholder just before the test. *)
Definition main : M unit := main_with BOT_TOKEN.

(** ** Reading a batch run off the trace *)

(** Telegram delivers every call except, possibly, document uploads. *)
Definition text_chat_reliable (env : Env) : Prop :=
  ∀ history ev,
    (∀ path filename caption, ev ≠ EvReplyDocument path filename caption) →
    telegram env history ev = None.

(** The events that mark the progress of a batch: the position
    announcement, the first call of the download step, the first call of
    the relay step, and the pause. *)
Definition milestone (ev : Event) : bool :=
  match ev with
  | EvReplyText text => startswith text "📥 Downloading "
  | EvSendMessage _ _ _ => true
  | EvOpen _ _ => true
  | EvSleep _ => true
  | _ => false
  end.

(** The milestones of item [i]; [relayed] is the file handed to the
    relay step, if any. *)
Definition item_milestones (chat_id : Z) (total i : nat) (link : string)
    (relayed : option string) : list Event :=
  [EvReplyText (announce_text i total);
   EvSendMessage chat_id (processing_text link) (Some "Markdown")]
  ++ match relayed with
     | Some path => [EvOpen path "rb"]
     | None => []
     end
  ++ [EvSleep 2].

Fixpoint batch_milestones (chat_id : Z) (total i : nat) (links : list string)
    (relayed : list (option string)) : list Event :=
  match links, relayed with
  | link :: links', r :: relayed' =>
      item_milestones chat_id total i link r
      ++ batch_milestones chat_id total (S i) links' relayed'
  | _, _ => []
  end.

(** Every relay step comes right after a download step that succeeded:
    the event before the opening of a file is the "download completed"
    edit that names this file. *)
Fixpoint relay_follows_download (previous : option Event) (events : list Event) : Prop :=
  match events with
  | [] => True
  | ev :: events' =>
      match ev with
      | EvOpen path _ =>
          ∃ message file_name,
            previous = Some (EvEditText message (completed_text file_name path)
                               (Some "Markdown"))
      | _ => True
      end
      ∧ relay_follows_download (Some ev) events'
  end.

(** The file a run of the download step hands over to the relay step:
    the path it returned, if it returned one that is not empty. *)
Definition handed_over (result : Outcome (option string)) : option string :=
  match result with
  | Return (Some path) => if truthy path then Some path else None
  | _ => None
  end.

(** The world after item [i] of a batch whose calls do not raise:
    announcement, download step, relay step on the file handed over if
    there is one, pause. *)
Definition item_world (env : Env) (self : Bot) (update : Update) (links : list string)
    (i : nat) (link : string) (w : World) : World :=
  let run := download_from_public_link env self link (effective_chat_id update)
               (record (EvReplyText (announce_text i (length links))) w) in
  record (EvSleep 2)
    match handed_over (fst run) with
    | Some path =>
        snd (relay env (batch_caption i (length links)) (batch_error i) path (snd run))
    | None => snd run
    end.

(** What the download step handed over for each item of the batch, in
    order, each item starting in the world the item before it left. *)
Fixpoint batch_results (env : Env) (self : Bot) (update : Update) (links : list string)
    (i : nat) (todo : list string) (w : World) : list (option string) :=
  match todo with
  | [] => []
  | link :: todo' =>
      handed_over
        (fst (download_from_public_link env self link (effective_chat_id update)
                (record (EvReplyText (announce_text i (length links))) w)))
      :: batch_results env self update links (S i) todo'
           (item_world env self update links i link w)
  end.

(** An event that is neither a milestone nor the closing message. *)
Definition passive (ev : Event) : Prop :=
  milestone ev = false ∧ ev ≠ EvReplyText BATCH_COMPLETED.

(** ** Scenarios

    The files and the paths of the scenarios are ASCII text without
    carriage returns: reading in text mode returns such bytes as they
    are, whatever the encoding of the platform. *)

Definition empty_world : World := {| fs := ∅; trace := [] |}.

Definition bot : Bot := {| download_dir := "downloads" |}.

Definition list_document : Document :=
  {| mime_type := Some "text/plain"; file_name := Some "links.txt"; file_id := "F1" |}.

Definition owner_update (text : string) : Update :=
  {| effective_user_id := 123456789; effective_chat_id := 42;
     message_text := text; message_document := list_document |}.

Definition stranger_update (text : string) : Update :=
  {| effective_user_id := -1; effective_chat_id := 7;
     message_text := text; message_document := list_document |}.

Definition list_text : string :=
  "https://mega.nz/file/AAA" +:+ NL +:+ "https://mega.nz/file/BAD" +:+ NL +:+ NL
  +:+ "https://mega.nz/file/BBB" +:+ NL.

(** Every link resolves to [a.zip] of 2048 bytes, except the one ending
    in [BAD]; downloads land in the download directory. *)
Definition mega_info_sample (link : string) : Outcome (option FileInfo) :=
  if endswith link "BAD" then Return None
  else Return (Some {| info_name := "a.zip"; info_size := 2048 |}).

Definition mega_download_sample (link dest_path dest_filename : string)
    : Outcome (string * string) :=
  Return (dest_path +:+ "/" +:+ dest_filename, "data").

Definition reliable_env : Env :=
  {| telegram := λ _ _, None;
     telegram_file := λ _, list_text;
     get_public_file_info := λ _, mega_info_sample;
     download_from_url := λ _, mega_download_sample;
     read_text := Return;
     no_such_file := errno2 |}.

(** Telegram refuses every document upload. *)
Definition upload_failing_env : Env :=
  {| telegram := λ _ ev, match ev with
                         | EvReplyDocument _ _ _ => Some "Request Entity Too Large"
                         | _ => None
                         end;
     telegram_file := λ _, list_text;
     get_public_file_info := λ _, mega_info_sample;
     download_from_url := λ _, mega_download_sample;
     read_text := Return;
     no_such_file := errno2 |}.

(** The download command for a link that resolves, when the upload is
    refused. *)
Definition refused_upload_run : Outcome unit * World :=
  download_command upload_failing_env bot (owner_update "")
    {| args := ["https://mega.nz/file/X"] |} empty_world.

(** A valid link followed by a blank. *)
Definition trailing_blank_line : string := "https://mega.nz/file/AAA ".

(** Telegram is unreachable: every call raises. *)
Definition chat_down_env : Env :=
  {| telegram := λ _ _, Some "Network is unreachable";
     telegram_file := λ _, list_text;
     get_public_file_info := λ _, mega_info_sample;
     download_from_url := λ _, mega_download_sample;
     read_text := Return;
     no_such_file := errno2 |}.

(** Mega is unreachable: the lookup raises. *)
Definition mega_down_env : Env :=
  {| telegram := λ _ _, None;
     telegram_file := λ _, list_text;
     get_public_file_info := λ _ _, Raise "Connection refused";
     download_from_url := λ _ _ _ _, Raise "Connection refused";
     read_text := Return;
     no_such_file := errno2 |}.

(** Telegram delivers everything except the "download completed" edit. *)
Definition last_edit_failing_env : Env :=
  {| telegram := λ _ ev, match ev with
                         | EvEditText _ text _ =>
                             if startswith text "✅ Download completed!"
                             then Some "Timed out" else None
                         | _ => None
                         end;
     telegram_file := λ _, list_text;
     get_public_file_info := λ _, mega_info_sample;
     download_from_url := λ _, mega_download_sample;
     read_text := Return;
     no_such_file := errno2 |}.

(** Telegram delivers the first call and then becomes unreachable. *)
Definition chat_dropping_env : Env :=
  {| telegram := λ history _, match history with
                              | [] => None
                              | _ => Some "Network is unreachable"
                              end;
     telegram_file := λ _, list_text;
     get_public_file_info := λ _, mega_info_sample;
     download_from_url := λ _, mega_download_sample;
     read_text := Return;
     no_such_file := errno2 |}.

(** Mega is unreachable and Telegram refuses every edit of a message. *)
Definition report_failing_env : Env :=
  {| telegram := λ _ ev, match ev with
                         | EvEditText _ _ _ => Some "Timed out"
                         | _ => None
                         end;
     telegram_file := λ _, list_text;
     get_public_file_info := λ _ _, Raise "Connection refused";
     download_from_url := λ _ _ _ _, Raise "Connection refused";
     read_text := Return;
     no_such_file := errno2 |}.

(** The batch of [list_text] when Mega is down and edits are refused. *)
Definition stalled_batch_run : Outcome unit * World :=
  handle_document report_failing_env bot (owner_update "") {| args := [] |} empty_world.

(** Two bytes that are not UTF-8 text, and what a platform whose
    encoding is UTF-8 says when the text it is to decode begins with the
    byte 255, which starts no UTF-8 sequence. *)
Definition undecodable_bytes : string :=
  String (ascii_of_nat 255) (String (ascii_of_nat 254) "").

Definition utf8_sample (data : string) : Outcome string :=
  if startswith data (String (ascii_of_nat 255) "")
  then Raise "'utf-8' codec can't decode byte 0xff in position 0: invalid start byte"
  else Return data.

Definition undecodable_env : Env :=
  {| telegram := λ _ _, None;
     telegram_file := λ _, undecodable_bytes;
     get_public_file_info := λ _, mega_info_sample;
     download_from_url := λ _, mega_download_sample;
     read_text := utf8_sample;
     no_such_file := errno2 |}.

(** A plain-text upload whose bytes do not decode. *)
Definition undecodable_run : Outcome unit * World :=
  handle_document undecodable_env bot (owner_update "") {| args := [] |} empty_world.

(** An uploaded picture: neither declared as plain text nor named [*.txt]. *)
Definition picture_document : Document :=
  {| mime_type := Some "image/png"; file_name := Some "cat.png"; file_id := "F2" |}.

Definition picture_update : Update :=
  {| effective_user_id := 123456789; effective_chat_id := 42;
     message_text := ""; message_document := picture_document |}.

(** What the download step may do once its message is out: ask Mega,
    log, and edit that one message. *)
Definition progress_event (message : nat) (ev : Event) : Prop :=
  match ev with
  | EvEditText m _ _ => m = message
  | EvGetPublicFileInfo _ | EvDownloadFromUrl _ _ _ | EvLogError _ => True
  | _ => False
  end.

(** The units in the order [format_size] goes through them, and the
    1024-magnitude of a size, capped at the last unit. *)
Definition UNITS : list string := ["B"; "KB"; "MB"; "GB"; "TB"; "PB"].

Definition magnitude (size_bytes : Z) : Z := Z.min 5 (Z.log2 size_bytes / 10).

(** * Properties *)

(** ** Running a computation *)

Ltac unfold_bot :=
  unfold start_command, download_command, handle_message, handle_document,
    download_from_public_link, download_failed, relay, if_downloaded,
    is_text_document, run_batch, main, main_with, init, run_bot,
    try_except_local, try_except, lift, raise,
    send_message, edit_text, reply_text, reply_document, get_file,
    download_to_drive, mega_get_public_file_info, mega_download_from_url,
    open_file, os_remove, sleep, logger_info, logger_error, print, emit,
    telegram_call, mbind, mret, M_bind, M_ret, bind, ret in *.

(** ** Size formatter *)

Example format_size_samples :
  format_size 999 = Return "999.00 B"
  ∧ format_size 1023 = Return "1023.00 B"
  ∧ format_size 1029 = Return "1.00 KB"
  ∧ format_size 1030 = Return "1.01 KB"
  ∧ format_size 1234567890 = Return "1.15 GB"
  ∧ format_size (2 ^ 60) = Return "1024.00 PB"
  ∧ format_size (-5) = Return "-5.00 B".
Proof. vm_compute. repeat split. Qed.

(** C6. The reference values of the size formatter: 0 gives "0.00 B",
    1024 gives "1.00 KB", 1536 gives "1.50 KB" and 1024**4 gives
    "1.00 TB": units step by 1024 and two decimals are shown. *)
Theorem format_size_reference_values :
  format_size 0 = Return "0.00 B"
  ∧ format_size 1024 = Return "1.00 KB"
  ∧ format_size 1536 = Return "1.50 KB"
  ∧ format_size (1024 ^ 4) = Return "1.00 TB".
Proof. vm_compute. repeat split. Qed.

(** ** Strings *)

Example strip_samples :
  strip ("  https://mega.nz/file/AAA" +:+ NL) = "https://mega.nz/file/AAA"
  ∧ strip (String (ascii_of_nat 9) "a b" +:+ String (ascii_of_nat 194) (String (ascii_of_nat 160) ""))
    = "a b"
  ∧ strip (String (ascii_of_nat 226) (String (ascii_of_nat 128) (String (ascii_of_nat 139) "")))
    = String (ascii_of_nat 226) (String (ascii_of_nat 128) (String (ascii_of_nat 139) ""))
  ∧ strip (" " +:+ NL) = ""
  ∧ basename "downloads/a.zip" = "a.zip"
  ∧ endswith "links.txt" ".txt" = true
  ∧ file_lines ("a" +:+ NL +:+ NL +:+ "b") = ["a" +:+ NL; NL; "b"].
Proof. vm_compute. repeat split. Qed.

(** [repr] of a path: plain, with an apostrophe, with a backslash, with
    both quotes, with a tab. *)
Example repr_samples :
  repr "downloads/a.zip" = "'downloads/a.zip'"
  ∧ repr "it's.zip" = String double_quote ("it's.zip" +:+ String double_quote "")
  ∧ repr "a\b" = "'a\\b'"
  ∧ repr (String single_quote (String double_quote ""))
    = String single_quote
        (String backslash (String single_quote (String double_quote (String single_quote ""))))
  ∧ repr (String (ascii_of_nat 9) (String (ascii_of_nat 1) ""))
    = String single_quote (String backslash "t" +:+ String backslash "x01'").
Proof. vm_compute. repeat split. Qed.

(** ** Link validator *)

Lemma append_cons (c : ascii) (s t : string) : String c s +:+ t = String c (s +:+ t).
Proof. reflexivity. Qed.

Lemma startswith_app (p t : string) : startswith (p +:+ t) p = true.
Proof.
  induction p as [|c p IH]; [reflexivity|].
  rewrite append_cons. simpl. by rewrite Ascii.eqb_refl.
Qed.

Lemma startswith_inv (s p : string) :
  startswith s p = true → ∃ t, s = p +:+ t.
Proof.
  revert s. induction p as [|c p IH]; intros s H; simpl in *.
  - by exists s.
  - destruct s as [|d s]; [done|].
    destruct (Ascii.eqb d c) eqn:E; [|done].
    apply Ascii.eqb_eq in E as ->.
    destruct (IH _ H) as [t ->]. by exists t.
Qed.

Lemma startswith_iff (s p : string) :
  startswith s p = true ↔ ∃ t, s = p +:+ t.
Proof.
  split; [apply startswith_inv|]. intros [t ->]. apply startswith_app.
Qed.

(** C8. A string passes the link test exactly when it begins, at
    position 0, with "https://mega.nz/".  The empty string fails, a link
    with the scheme "http://" fails, and a string that does not begin
    with the prefix fails even when the prefix occurs further on. *)
Theorem link_validator_prefix_only :
  (∀ s, startswith s MEGA_PREFIX = true ↔ ∃ t, s = MEGA_PREFIX +:+ t)
  ∧ startswith "" MEGA_PREFIX = false
  ∧ (∀ t, startswith ("http://mega.nz/" +:+ t) MEGA_PREFIX = false)
  ∧ (∀ c u t, c ≠ "h"%char →
       startswith (String c u +:+ MEGA_PREFIX +:+ t) MEGA_PREFIX = false)
  ∧ (∀ s, (∀ t, s ≠ MEGA_PREFIX +:+ t) → startswith s MEGA_PREFIX = false).
Proof.
  split; [intros s; apply startswith_iff|].
  split; [done|].
  split; [intros t; reflexivity|].
  split.
  - intros c u t Hc. rewrite append_cons. simpl.
    destruct (Ascii.eqb c "h") eqn:E; [|done].
    by apply Ascii.eqb_eq in E.
  - intros s Hs. destruct (startswith s MEGA_PREFIX) eqn:E; [|done].
    apply startswith_inv in E as [t ->]. by destruct (Hs t).
Qed.

Lemma link_validator_prefix_only_witness :
  startswith (String " " "" +:+ MEGA_PREFIX +:+ "file/AAA") MEGA_PREFIX = false.
Proof.
  destruct link_validator_prefix_only as (_ & _ & _ & H & _).
  apply H. discriminate.
Defined.

(** ** Batch list parsing *)

Lemma valid_line_strip_truthy (line : string) :
  startswith line MEGA_PREFIX = true → truthy (strip line) = true.
Proof.
  intros [t ->]%startswith_inv.
  unfold MEGA_PREFIX. cbv [String.append]. reflexivity.
Qed.

Lemma parse_links_spec (lines : list string) :
  parse_links lines
  = map strip (List.filter (λ line, startswith line MEGA_PREFIX) lines).
Proof.
  induction lines as [|line lines IH]; [done|].
  cbn [parse_links List.filter].
  destruct (startswith line MEGA_PREFIX) eqn:E.
  - rewrite (valid_line_strip_truthy _ E). cbn [andb map]. by rewrite IH.
  - by rewrite andb_false_r.
Qed.

Lemma is_text_document_true (document : Document) (w : World) :
  text_document document → is_text_document document w = (Return true, w).
Proof.
  intros [H | (n & Hn & He)]; unfold is_text_document.
  - by rewrite bool_decide_eq_true_2.
  - case_bool_decide; [done|]. rewrite Hn. unfold_bot. by rewrite He.
Qed.

Lemma handle_document_start (update : Update) (w : World) (k : bool → M unit) :
  text_document (message_document update) →
  (is_text ← is_text_document (message_document update); k is_text) w = k true w.
Proof.
  intros Htext. unfold mbind, M_bind, bind.
  by rewrite (is_text_document_true _ _ Htext).
Qed.

(** The list file is fetched, read and removed before anything is done
    with the links. *)
Lemma handle_document_prologue env self update context w text :
  let document := message_document update in
  let temp_file := temp_file_of document in
  authorized update = true →
  text_document document →
  telegram env (trace w) (EvGetFile (file_id document)) = None →
  telegram env (trace w ++ [EvGetFile (file_id document)])
    (EvDownloadToDrive (file_id document) temp_file) = None →
  read_text env (telegram_file env (file_id document)) = Return text →
  handle_document env self update context w
  = run_batch env self update (parse_links (file_lines text))
      {| fs := delete temp_file (fs w);
         trace := trace w ++ [EvGetFile (file_id document);
                              EvDownloadToDrive (file_id document) temp_file;
                              EvOpen temp_file "r";
                              EvRemove temp_file] |}.
Proof.
  intros document temp_file Hauth Htext Hget Hdtd Hread.
  subst document temp_file.
  unfold handle_document. rewrite Hauth. cbn [negb]. cbn zeta.
  rewrite (handle_document_start update w _ Htext).
  unfold get_file, telegram_call, download_to_drive, open_file, os_remove, lift,
    mbind, M_bind, bind.
  rewrite Hget. cbn [trace fs record]. rewrite Hdtd. cbn [trace fs].
  rewrite lookup_insert_eq. rewrite Hread. cbn [trace fs record].
  rewrite lookup_insert_eq. rewrite delete_insert_eq.
  by rewrite <- !app_assoc.
Qed.

(** A list that does not decode: the exception leaves the handler from
    inside the [with] block, before [os.remove(temp_file)]. *)
Lemma handle_document_undecodable env self update context w e :
  let document := message_document update in
  let temp_file := temp_file_of document in
  authorized update = true →
  text_document document →
  telegram env (trace w) (EvGetFile (file_id document)) = None →
  telegram env (trace w ++ [EvGetFile (file_id document)])
    (EvDownloadToDrive (file_id document) temp_file) = None →
  read_text env (telegram_file env (file_id document)) = Raise e →
  handle_document env self update context w
  = (Raise e,
     {| fs := <[temp_file := telegram_file env (file_id document)]> (fs w);
        trace := trace w ++ [EvGetFile (file_id document);
                             EvDownloadToDrive (file_id document) temp_file;
                             EvOpen temp_file "r"] |}).
Proof.
  intros document temp_file Hauth Htext Hget Hdtd Hread.
  subst document temp_file.
  unfold handle_document. rewrite Hauth. cbn [negb]. cbn zeta.
  rewrite (handle_document_start update w _ Htext).
  unfold get_file, telegram_call, download_to_drive, open_file, os_remove, lift,
    mbind, M_bind, bind.
  rewrite Hget. cbn [trace fs record]. rewrite Hdtd. cbn [trace fs].
  rewrite lookup_insert_eq. rewrite Hread. unfold record. cbn [trace fs].
  by rewrite <- !app_assoc.
Qed.

(** C5 (as amended). The link batch is made of the lines that pass the
    link test, each stripped of surrounding white space (line terminator
    included), in their original order and with duplicates kept; the
    lines [""], ["https://mega.nz/file/AAA"], ["not-a-link"],
    ["https://mega.nz/file/BBB"] give the two links in that order.  For
    an uploaded list that decodes, the temporary list file is removed
    right after it has been read, before the batch is run; for one that
    does not decode, the handler ends with the decoding error and the
    temporary file is left. *)
Theorem batch_parsing :
  (∀ lines,
     parse_links lines
     = map strip (List.filter (λ line, startswith line MEGA_PREFIX) lines))
  ∧ parse_links [""; "https://mega.nz/file/AAA"; "not-a-link"; "https://mega.nz/file/BBB"]
    = ["https://mega.nz/file/AAA"; "https://mega.nz/file/BBB"]
  ∧ parse_links (file_lines
      ("https://mega.nz/file/AAA" +:+ NL +:+ NL +:+ "https://mega.nz/file/AAA" +:+ NL
       +:+ "not-a-link" +:+ NL +:+ "https://mega.nz/file/BBB"))
    = ["https://mega.nz/file/AAA"; "https://mega.nz/file/AAA"; "https://mega.nz/file/BBB"]
  ∧ (∀ env self update context w,
       let document := message_document update in
       let temp_file := temp_file_of document in
       let fetched := [EvGetFile (file_id document);
                       EvDownloadToDrive (file_id document) temp_file;
                       EvOpen temp_file "r"] in
       authorized update = true →
       text_document document →
       telegram env (trace w) (EvGetFile (file_id document)) = None →
       telegram env (trace w ++ [EvGetFile (file_id document)])
         (EvDownloadToDrive (file_id document) temp_file) = None →
       (∀ text,
          read_text env (telegram_file env (file_id document)) = Return text →
          handle_document env self update context w
          = run_batch env self update (parse_links (file_lines text))
              {| fs := delete temp_file (fs w);
                 trace := trace w ++ fetched ++ [EvRemove temp_file] |})
       ∧ (∀ e,
            read_text env (telegram_file env (file_id document)) = Raise e →
            handle_document env self update context w
            = (Raise e,
               {| fs := <[temp_file := telegram_file env (file_id document)]> (fs w);
                  trace := trace w ++ fetched |}))).
Proof.
  split; [apply parse_links_spec|].
  split; [vm_compute; reflexivity|].
  split; [vm_compute; reflexivity|].
  intros env self update context w document temp_file fetched Hauth Htext Hget Hdtd.
  split.
  - intros text Hread.
    by apply (handle_document_prologue env self update context w text).
  - intros e Hread.
    by apply (handle_document_undecodable env self update context w e).
Qed.

(** A line with a trailing blank passes the link test, yet the batch
    holds the stripped text and not the line.  And an upload that does
    not decode is never parsed: the handler raises, no removal is
    attempted and the temporary file is still there. *)
Lemma batch_parsing_strips_lines :
  truthy trailing_blank_line && startswith trailing_blank_line MEGA_PREFIX = true
  ∧ parse_links [trailing_blank_line] = ["https://mega.nz/file/AAA"]
  ∧ parse_links [trailing_blank_line]
    ≠ List.filter (λ line, truthy line && startswith line MEGA_PREFIX) [trailing_blank_line]
  ∧ fst undecodable_run
    = Raise "'utf-8' codec can't decode byte 0xff in position 0: invalid start byte"
  ∧ fs (snd undecodable_run) !! "temp_F1.txt" = Some undecodable_bytes
  ∧ trace (snd undecodable_run)
    = [EvGetFile "F1"; EvDownloadToDrive "F1" "temp_F1.txt"; EvOpen "temp_F1.txt" "r"].
Proof. vm_compute. repeat split. discriminate. Qed.

Lemma batch_parsing_witness :
  handle_document reliable_env bot (owner_update "") {| args := [] |} empty_world
  = run_batch reliable_env bot (owner_update "")
      ["https://mega.nz/file/AAA"; "https://mega.nz/file/BAD"; "https://mega.nz/file/BBB"]
      {| fs := ∅;
         trace := [EvGetFile "F1"; EvDownloadToDrive "F1" "temp_F1.txt";
                   EvOpen "temp_F1.txt" "r"; EvRemove "temp_F1.txt"] |}.
Proof.
  destruct batch_parsing as (_ & _ & _ & H).
  destruct (H reliable_env bot (owner_update "") {| args := [] |} empty_world) as [Hok _].
  - vm_compute. reflexivity.
  - left. reflexivity.
  - reflexivity.
  - reflexivity.
  - exact (Hok list_text eq_refl).
Defined.

(** ** Start-up *)

(** C9. With the access token left at its placeholder the program only
    prints the four set-up lines: no bot object is made and nothing
    connects.  With any other token it makes the bot and runs it. *)
Theorem startup_token_check (token : string) (w : World) :
  (token = PLACEHOLDER_TOKEN →
     main_with token w
     = (Return (),
        record_all
          [EvPrint "❌ Please set your bot token in the BOT_TOKEN variable";
           EvPrint "1. Create a bot with @BotFather on Telegram";
           EvPrint "2. Copy the token and replace 'YOUR_BOT_TOKEN_HERE'";
           EvPrint "3. Add your user ID to AUTHORIZED_USERS list"] w))
  ∧ (token ≠ PLACEHOLDER_TOKEN →
     main_with token w
     = (Return (),
        record_all
          [EvMkdir "downloads";
           EvLogInfo "Telegram Mega Download Bot initialized";
           EvBuildApplication token;
           EvAddHandler "start"; EvAddHandler "download";
           EvAddHandler "handle_message"; EvAddHandler "handle_document";
           EvLogInfo "Bot is running...";
           EvRunPolling] w)).
Proof.
  split; intros H; unfold main_with.
  - rewrite (proj2 (String.eqb_eq _ _) H). unfold_bot. unfold record, record_all.
    cbn [fs trace]. by rewrite <- !app_assoc.
  - rewrite (proj2 (String.eqb_neq _ _) H). unfold_bot. unfold record, record_all.
    cbn [fs trace]. by rewrite <- !app_assoc.
Qed.

Lemma startup_token_check_witness :
  main empty_world
  = (Return (),
     record_all
       [EvPrint "❌ Please set your bot token in the BOT_TOKEN variable";
        EvPrint "1. Create a bot with @BotFather on Telegram";
        EvPrint "2. Copy the token and replace 'YOUR_BOT_TOKEN_HERE'";
        EvPrint "3. Add your user ID to AUTHORIZED_USERS list"] empty_world)
  ∧ main_with "110201543:AAHdqTcvCH1vGWJxfSeofSAs0K5PALDsaw" empty_world
    = (Return (),
       record_all
         [EvMkdir "downloads";
          EvLogInfo "Telegram Mega Download Bot initialized";
          EvBuildApplication "110201543:AAHdqTcvCH1vGWJxfSeofSAs0K5PALDsaw";
          EvAddHandler "start"; EvAddHandler "download";
          EvAddHandler "handle_message"; EvAddHandler "handle_document";
          EvLogInfo "Bot is running...";
          EvRunPolling] empty_world).
Proof.
  split.
  - apply (proj1 (startup_token_check BOT_TOKEN empty_world)). reflexivity.
  - apply (proj2 (startup_token_check _ empty_world)). discriminate.
Defined.

(** ** Authorization gate *)

Lemma not_authorized (update : Update) :
  effective_user_id update ∉ AUTHORIZED_USERS → authorized update = false.
Proof. intros H. unfold authorized. by apply bool_decide_eq_false_2. Qed.

(** C2. When the sender is not on the allow-list, each of the four entry
    points (start, download, free text, document) makes one call, the
    reply with the fixed denial text, and stops: the world afterwards is
    the world before with that one event added, so no download or relay
    step ran and no file was written. *)
Theorem unauthorized_is_denied env self update context w :
  effective_user_id update ∉ AUTHORIZED_USERS →
  let denied := record (EvReplyText DENIED) w in
  snd (start_command env update context w) = denied
  ∧ snd (download_command env self update context w) = denied
  ∧ snd (handle_message env self update context w) = denied
  ∧ snd (handle_document env self update context w) = denied.
Proof.
  intros H%not_authorized denied.
  unfold start_command, download_command, handle_message, handle_document.
  rewrite H. cbn [negb].
  unfold reply_text, telegram_call. by destruct (telegram _ _ _).
Qed.

Lemma unauthorized_is_denied_witness :
  snd (download_command reliable_env bot (stranger_update "")
         {| args := ["https://mega.nz/file/AAA"] |} empty_world)
  = record (EvReplyText DENIED) empty_world.
Proof.
  destruct (unauthorized_is_denied reliable_env bot (stranger_update "")
              {| args := ["https://mega.nz/file/AAA"] |} empty_world) as (_ & H & _).
  - apply not_elem_of_cons. split; [discriminate | apply not_elem_of_nil].
  - exact H.
Defined.

(** C10. The download command from an authorized sender with no argument
    makes one call, the reply with the usage example, and stops: nothing
    is downloaded, relayed or written. *)
Theorem download_without_argument env self update context w :
  effective_user_id update ∈ AUTHORIZED_USERS →
  args context = [] →
  snd (download_command env self update context w) = record (EvReplyText USAGE) w.
Proof.
  intros Hin Hargs. unfold download_command, authorized.
  rewrite (bool_decide_eq_true_2 _ Hin), Hargs. cbn [negb].
  unfold reply_text, telegram_call. by destruct (telegram _ _ _).
Qed.

Lemma download_without_argument_witness :
  snd (download_command reliable_env bot (owner_update "") {| args := [] |} empty_world)
  = record (EvReplyText USAGE) empty_world.
Proof.
  apply download_without_argument.
  - vm_compute. left.
  - reflexivity.
Defined.

(** ** Download step *)



(** ** Relay step *)

Lemma relay_after_upload env caption error_text path w :
  telegram env (trace w ++ [EvOpen path "rb"])
    (EvReplyDocument path (basename path) (caption (basename path))) = None →
  ∃ r w', relay env caption error_text path w = (r, w')
          ∧ fs w' = delete path (fs w).
Proof.
  intros Hup. unfold_bot.
  destruct (fs w !! path) as [data|] eqn:Hfile; cbn [trace fs record].
  - rewrite Hup. cbn [trace fs record]. rewrite Hfile.
    eexists _, _. split; reflexivity.
  - match goal with
    | |- context [telegram env ?h (EvReplyText ?t)] =>
        destruct (telegram env h (EvReplyText t))
    end; eexists _, _; (split; [reflexivity|]);
      cbn [trace fs record]; symmetry; by apply delete_id.
Qed.

(** C1 (as amended). Whenever the upload of the document succeeds, the
    relay step deletes the local file before it ends and touches no other
    file; so after [download_command] or [handle_message] has relayed a
    download, the file handed over by the download step is gone. *)
Theorem relay_cleanup_after_upload env self :
  (∀ caption error_text path w,
     telegram env (trace w ++ [EvOpen path "rb"])
       (EvReplyDocument path (basename path) (caption (basename path))) = None →
     ∃ r w', relay env caption error_text path w = (r, w')
             ∧ fs w' = delete path (fs w)
             ∧ fs w' !! path = None)
  ∧ (∀ update context mega_link path w0 w,
       authorized update = true →
       startswith mega_link MEGA_PREFIX = true →
       download_from_public_link env self mega_link (effective_chat_id update) w0
       = (Return (Some path), w) →
       truthy path = true →
       telegram env (trace w ++ [EvOpen path "rb"])
         (EvReplyDocument path (basename path) (single_caption (basename path))) = None →
       (∀ rest, args context = mega_link :: rest →
          fs (snd (download_command env self update context w0)) !! path = None)
       ∧ (message_text update = mega_link →
          fs (snd (handle_message env self update context w0)) !! path = None)).
Proof.
  split.
  - intros caption error_text path w Hup.
    destruct (relay_after_upload env caption error_text path w Hup) as (r & w' & Hrun & Hfs).
    exists r, w'. split; [done|]. split; [done|].
    rewrite Hfs. apply lookup_delete_eq.
  - intros update context mega_link path w0 w Hauth Hlink Hdl Hpath Hup.
    destruct (relay_after_upload env single_caption single_error path w Hup)
      as (r & w' & Hrun & Hfs).
    split.
    + intros rest Hargs. unfold download_command.
      rewrite Hauth, Hargs, Hlink. cbn [negb].
      unfold mbind, M_bind, bind. rewrite Hdl.
      unfold if_downloaded. rewrite Hpath, Hrun. cbn [snd].
      rewrite Hfs. apply lookup_delete_eq.
    + intros Htext. unfold handle_message.
      rewrite Hauth, Htext, Hlink. cbn [negb].
      unfold mbind, M_bind, bind. rewrite Hdl.
      unfold if_downloaded. rewrite Hpath, Hrun. cbn [snd].
      rewrite Hfs. apply lookup_delete_eq.
Qed.

Lemma relay_cleanup_after_upload_witness :
  fs (snd (download_command reliable_env bot (owner_update "")
             {| args := ["https://mega.nz/file/X"] |} empty_world))
    !! "downloads/a.zip" = None.
Proof.
  pose (w := snd (download_from_public_link reliable_env bot "https://mega.nz/file/X" 42
                    empty_world)).
  destruct (relay_cleanup_after_upload reliable_env bot) as [_ H].
  destruct (H (owner_update "") {| args := ["https://mega.nz/file/X"] |}
              "https://mega.nz/file/X" "downloads/a.zip" empty_world w) as [H1 _].
  - vm_compute. reflexivity.
  - reflexivity.
  - vm_compute. reflexivity.
  - reflexivity.
  - reflexivity.
  - exact (H1 [] eq_refl).
Defined.

(** When Telegram refuses the upload, the downloaded file is still there
    after [download_command] has returned, and no removal was attempted. *)
Lemma relay_leaves_file_when_upload_fails :
  fst refused_upload_run = Return ()
  ∧ fs (snd refused_upload_run) !! "downloads/a.zip" = Some "data"
  ∧ trace (snd refused_upload_run)
    = [EvSendMessage 42 (processing_text "https://mega.nz/file/X") (Some "Markdown");
       EvGetPublicFileInfo "https://mega.nz/file/X";
       EvEditText 0 (info_text "a.zip" "2.00 KB") (Some "Markdown");
       EvDownloadFromUrl "https://mega.nz/file/X" "downloads" "a.zip";
       EvEditText 0 (completed_text "a.zip" "downloads/a.zip") (Some "Markdown");
       EvOpen "downloads/a.zip" "rb";
       EvReplyDocument "downloads/a.zip" "a.zip" "✅ Download completed: a.zip";
       EvReplyText "❌ Error sending file: Request Entity Too Large"].
Proof. vm_compute. repeat split. Qed.

(** ** Size formatter: units and order *)

Section Rounding.

Local Open Scope Z_scope.

Lemma round_half_even_between (a b : Z) :
  0 < b → a / b ≤ round_half_even a b ≤ a / b + 1.
Proof.
  intros Hb. unfold round_half_even.
  repeat case_match; lia.
Qed.

Lemma round_half_even_mono (a a' b : Z) :
  0 < b → a ≤ a' → round_half_even a b ≤ round_half_even a' b.
Proof.
  intros Hb Hle.
  pose proof (Z.div_le_mono a a' b Hb Hle) as Hq.
  destruct (Z.eq_dec (a / b) (a' / b)) as [E|N].
  - pose proof (Z.div_mod a b ltac:(lia)) as Ha.
    pose proof (Z.div_mod a' b ltac:(lia)) as Ha'.
    unfold round_half_even. rewrite E in *.
    destruct (Z.ltb_spec (2 * (a mod b)) b), (Z.ltb_spec b (2 * (a mod b))),
      (Z.ltb_spec (2 * (a' mod b)) b), (Z.ltb_spec b (2 * (a' mod b)));
      destruct (Z.even (a' / b)); lia.
  - pose proof (round_half_even_between a b Hb).
    pose proof (round_half_even_between a' b Hb). lia.
Qed.

Lemma round_half_even_multiple (k b : Z) : 0 < b → round_half_even (k * b) b = k.
Proof.
  intros Hb. unfold round_half_even.
  rewrite Z.div_mul, Z.mod_mul by lia.
  destruct (Z.ltb_spec (2 * 0) b); [done | lia].
Qed.

Lemma ulp_pos (a : Z) : 0 < ulp a.
Proof. unfold ulp. apply Z.pow_pos_nonneg; lia. Qed.

Lemma round53_0 : round53 0 = 0.
Proof. reflexivity. Qed.

Lemma round53_nonneg (a : Z) : 0 ≤ a → 0 ≤ round53 a.
Proof.
  intros Ha. unfold round53.
  pose proof (ulp_pos a) as Hu.
  pose proof (round_half_even_between a (ulp a) Hu).
  pose proof (Z.div_pos a (ulp a) Ha Hu). nia.
Qed.

(** The rounded value stays within the binade of [a]. *)
Lemma round53_binade (a : Z) :
  0 < a → 2 ^ Z.log2 a ≤ round53 a ≤ 2 ^ (Z.log2 a + 1).
Proof.
  intros Ha. unfold round53.
  pose proof (ulp_pos a) as Hu.
  destruct (Z.log2_spec a Ha) as [Hlo Hhi].
  pose proof (Z.log2_nonneg a) as HL.
  set (L := Z.log2 a) in *.
  assert (Hsplit : 2 ^ L = 2 ^ Z.min L 52 * ulp a).
  { unfold ulp. fold L. rewrite <- Z.pow_add_r by lia. f_equal. lia. }
  assert (Hsplit' : 2 ^ (L + 1) = 2 ^ (Z.min L 52 + 1) * ulp a).
  { unfold ulp. fold L. rewrite <- Z.pow_add_r by lia. f_equal. lia. }
  replace (Z.succ L) with (L + 1) in Hhi by lia.
  split.
  - pose proof (round_half_even_mono _ _ (ulp a) Hu Hlo) as H.
    rewrite Hsplit in H at 1. rewrite round_half_even_multiple in H by done.
    rewrite Hsplit. apply Z.mul_le_mono_nonneg_r; lia.
  - pose proof (round_half_even_mono a (2 ^ (L + 1)) (ulp a) Hu ltac:(lia)) as H.
    rewrite Hsplit' in H at 1. rewrite round_half_even_multiple in H by done.
    rewrite Hsplit'. apply Z.mul_le_mono_nonneg_r; lia.
Qed.

(** Conversion to [float] keeps the order of the integers. *)
Lemma round53_mono (a a' : Z) : 0 ≤ a ≤ a' → round53 a ≤ round53 a'.
Proof.
  intros [H0 Hle].
  destruct (Z.eq_dec a 0) as [->|Hne].
  { rewrite round53_0. by apply round53_nonneg. }
  pose proof (Z.log2_le_mono a a' Hle) as HL.
  destruct (Z.eq_dec (Z.log2 a) (Z.log2 a')) as [E|N].
  - unfold round53, ulp. rewrite E.
    apply Z.mul_le_mono_nonneg_r.
    + apply Z.pow_nonneg; lia.
    + apply round_half_even_mono; [|done]. apply Z.pow_pos_nonneg; lia.
  - pose proof (round53_binade a ltac:(lia)) as [_ Hup].
    pose proof (round53_binade a' ltac:(lia)) as [Hlo _].
    pose proof (Z.pow_le_mono_r 2 (Z.log2 a + 1) (Z.log2 a') ltac:(lia) ltac:(lia)).
    lia.
Qed.

Lemma round53_max : round53 MAX_CONVERTIBLE = 2 ^ 1024 - 2 ^ 971.
Proof. vm_compute. reflexivity. Qed.

Lemma float_of_int_fits (n : Z) :
  0 ≤ n → round53 n < 2 ^ 1024 → float_of_int n = Return (Float (round53 n) 0).
Proof.
  intros H0 Hfit. unfold float_of_int. rewrite Z.abs_eq by done.
  destruct (Z.leb_spec (2 ^ 1024) (round53 n)); [lia|].
  f_equal. f_equal.
  destruct (Z.eq_dec n 0) as [->|Hne]; [reflexivity|].
  rewrite Z.sgn_pos by lia. lia.
Qed.

Lemma float_of_int_overflow (n : Z) :
  0 ≤ n → 2 ^ 1024 ≤ round53 n →
  float_of_int n = Raise "int too large to convert to float".
Proof.
  intros H0 Hbig. unfold float_of_int. rewrite Z.abs_eq by done.
  by destruct (Z.leb_spec (2 ^ 1024) (round53 n)); [|lia].
Qed.

Lemma round53_fits (n : Z) : 0 ≤ n ≤ MAX_CONVERTIBLE → round53 n < 2 ^ 1024.
Proof.
  intros [H0 Hmax].
  pose proof (round53_mono n MAX_CONVERTIBLE ltac:(lia)) as Hle.
  rewrite round53_max in Hle.
  eapply Z.le_lt_trans; [exact Hle|]. vm_compute. reflexivity.
Qed.

Lemma hundredths_mono (m m' e : Z) :
  0 ≤ m ≤ m' → hundredths (Float m e) ≤ hundredths (Float m' e).
Proof.
  intros [H0 Hle]. unfold hundredths. cbn [mant expo].
  rewrite !Z.abs_eq by lia.
  destruct (Z.leb_spec 0 e).
  - apply Z.mul_le_mono_nonneg_r; [apply Z.pow_nonneg|]; lia.
  - apply round_half_even_mono; [apply Z.pow_pos_nonneg|]; lia.
Qed.

End Rounding.

Lemma format_size_loop_parts (units : list string) (v : number) :
  format_size_loop units v
  = bind_outcome (size_parts_loop units v) (λ parts, Return (show_parts parts)).
Proof.
  revert v. induction units as [|unit units IH]; intros v;
    cbn [format_size_loop size_parts_loop].
  - unfold format_2f. by destruct (to_float v).
  - destruct (lt_1024 v).
    + unfold format_2f. by destruct (to_float v).
    + destruct (div_1024 v); [apply IH | done].
Qed.

Lemma format_size_parts (n : Z) :
  format_size n = bind_outcome (size_parts n) (λ parts, Return (show_parts parts)).
Proof. apply format_size_loop_parts. Qed.

(** The unit is chosen by comparing the converted size with the powers
    of 1024, and the value shown is the converted size over that power. *)
Lemma size_parts_nonneg (n : Z) :
  (0 ≤ n)%Z → (round53 n < 2 ^ 1024)%Z →
  size_parts n
  = Return
      (if (n <? 1024)%Z then (Float (round53 n) 0, "B")
       else if (round53 n <? 2 ^ 20)%Z then (Float (round53 n) (-10), "KB")
       else if (round53 n <? 2 ^ 30)%Z then (Float (round53 n) (-20), "MB")
       else if (round53 n <? 2 ^ 40)%Z then (Float (round53 n) (-30), "GB")
       else if (round53 n <? 2 ^ 50)%Z then (Float (round53 n) (-40), "TB")
       else (Float (round53 n) (-50), "PB")).
Proof.
  intros H0 Hfit.
  pose proof (float_of_int_fits n H0 Hfit) as Hconv.
  unfold size_parts.
  cbn [size_parts_loop lt_1024 to_float div_1024].
  rewrite Hconv. cbn [bind_outcome mant expo].
  destruct (n <? 1024)%Z; [reflexivity|].
  cbn [size_parts_loop lt_1024 to_float div_1024 bind_outcome mant expo].
  change (0 - 10)%Z with (-10)%Z.
  change (0 <=? -10)%Z with false. cbn iota.
  change (1024 * 2 ^ (- -10))%Z with (2 ^ 20)%Z.
  destruct (round53 n <? 2 ^ 20)%Z; [reflexivity|].
  change (-10 - 10)%Z with (-20)%Z.
  change (0 <=? -20)%Z with false. cbn iota.
  change (1024 * 2 ^ (- -20))%Z with (2 ^ 30)%Z.
  destruct (round53 n <? 2 ^ 30)%Z; [reflexivity|].
  change (-20 - 10)%Z with (-30)%Z.
  change (0 <=? -30)%Z with false. cbn iota.
  change (1024 * 2 ^ (- -30))%Z with (2 ^ 40)%Z.
  destruct (round53 n <? 2 ^ 40)%Z; [reflexivity|].
  change (-30 - 10)%Z with (-40)%Z.
  change (0 <=? -40)%Z with false. cbn iota.
  change (1024 * 2 ^ (- -40))%Z with (2 ^ 50)%Z.
  destruct (round53 n <? 2 ^ 50)%Z; reflexivity.
Qed.

Lemma size_parts_fits (n : Z) (parts : float * string) :
  (0 ≤ n)%Z → size_parts n = Return parts → (round53 n < 2 ^ 1024)%Z.
Proof.
  intros H0 Hparts.
  destruct (Z.leb_spec (2 ^ 1024) (round53 n)) as [Hbig|]; [exfalso|done].
  pose proof (float_of_int_overflow n H0 Hbig) as Hconv.
  unfold size_parts in Hparts.
  cbn [size_parts_loop lt_1024 to_float div_1024] in Hparts.
  rewrite Hconv in Hparts. cbn [bind_outcome] in Hparts.
  by destruct (n <? 1024)%Z.
Qed.

(** C7 (as amended). For every non-negative integer that Python can
    convert to a float, the unit [format_size] ends on is one of B, KB,
    MB, GB, TB, PB; and of two sizes shown in the same unit, the larger
    one never shows the smaller number: the number shown grows weakly
    with the size.  ([size_parts] is the value and the unit that
    [format_size] renders.) *)
Theorem format_size_units_and_order :
  (∀ n, (0 ≤ n ≤ MAX_CONVERTIBLE)%Z →
     ∃ x unit,
       size_parts n = Return (x, unit)
       ∧ format_size n = Return (render_2f false (hundredths x) +:+ " " +:+ unit)
       ∧ unit ∈ ["B"; "KB"; "MB"; "GB"; "TB"; "PB"])
  ∧ (∀ n n' x x' unit,
       (0 ≤ n ≤ n')%Z →
       size_parts n = Return (x, unit) →
       size_parts n' = Return (x', unit) →
       (hundredths x ≤ hundredths x')%Z)
  ∧ (∀ n, format_size n
          = bind_outcome (size_parts n) (λ parts, Return (show_parts parts))).
Proof.
  split; [|split; [|apply format_size_parts]].
  - intros n [H0 Hmax].
    pose proof (round53_fits n (conj H0 Hmax)) as Hfit.
    pose proof (round53_nonneg n H0) as Hpos.
    rewrite format_size_parts, (size_parts_nonneg n H0 Hfit).
    assert (Hsign : (round53 n <? 0)%Z = false) by (apply Z.ltb_ge; lia).
    repeat case_match; eexists _, _; (split; [reflexivity|]);
      unfold show_parts; cbn [bind_outcome fst snd mant]; rewrite Hsign;
      (split; [reflexivity|]); set_solver.
  - intros n n' x x' unit [H0 Hle] Hn Hn'.
    pose proof (size_parts_fits n _ H0 Hn) as Hfit.
    pose proof (size_parts_fits n' _ ltac:(lia) Hn') as Hfit'.
    rewrite (size_parts_nonneg n H0 Hfit) in Hn.
    rewrite (size_parts_nonneg n' ltac:(lia) Hfit') in Hn'.
    pose proof (round53_mono n n' ltac:(lia)) as Hmono.
    pose proof (round53_nonneg n H0) as Hpos.
    repeat case_match; simplify_eq; apply hundredths_mono; lia.
Qed.

Lemma format_size_units_and_order_witness :
  (∃ x unit,
     size_parts 1536 = Return (x, unit)
     ∧ format_size 1536 = Return (render_2f false (hundredths x) +:+ " " +:+ unit)
     ∧ unit ∈ ["B"; "KB"; "MB"; "GB"; "TB"; "PB"])
  ∧ (hundredths (Float 1536 (-10)) ≤ hundredths (Float 2048 (-10)))%Z.
Proof.
  destruct format_size_units_and_order as (H1 & H2 & _). split.
  - apply H1. vm_compute. split; discriminate.
  - apply (H2 1536%Z 2048%Z _ _ "KB").
    + lia.
    + reflexivity.
    + reflexivity.
Defined.

(** 1024 and 1025 bytes are both shown as "1.00 KB": within a unit the
    number shown does not always grow.  And an integer too large for a
    float gets no unit at all: the conversion raises [OverflowError]. *)
Lemma format_size_not_strictly_increasing :
  size_parts 1024 = Return (Float 1024 (-10), "KB")
  ∧ size_parts 1025 = Return (Float 1025 (-10), "KB")
  ∧ hundredths (Float 1024 (-10)) = 100%Z
  ∧ hundredths (Float 1025 (-10)) = 100%Z
  ∧ format_size 1024 = Return "1.00 KB"
  ∧ format_size 1025 = Return "1.00 KB"
  ∧ format_size (2 ^ 1024) = Raise "int too large to convert to float".
Proof. vm_compute. repeat split. Qed.

(** The bound is tight: the largest convertible integer is still shown
    in PB, its successor raises. *)
Example float_range_is_tight :
  (∃ shown, format_size MAX_CONVERTIBLE = Return shown ∧ endswith shown ".00 PB" = true)
  ∧ format_size (MAX_CONVERTIBLE + 1) = Raise "int too large to convert to float".
Proof.
  split; [|vm_compute; reflexivity].
  eexists. split; vm_compute; reflexivity.
Qed.

(** ** Batch loop *)

Lemma filter_passive (events : list Event) :
  Forall passive events → List.filter milestone events = [].
Proof.
  induction 1 as [|ev events [Hev _] _ IH]; [done|].
  cbn [List.filter]. by rewrite Hev.
Qed.

Lemma last_default_cons (previous : option Event) (ev : Event) (l : list Event) :
  from_option Some previous (last (ev :: l)) = from_option Some (Some ev) (last l).
Proof.
  destruct l as [|ev' l]; [done|]. rewrite last_cons_cons.
  destruct (last (ev' :: l)) eqn:E; [done|]. by apply last_None in E.
Qed.

Lemma relay_follows_download_app (previous : option Event) (l1 l2 : list Event) :
  relay_follows_download previous l1 →
  relay_follows_download (from_option Some previous (last l1)) l2 →
  relay_follows_download previous (l1 ++ l2).
Proof.
  revert previous. induction l1 as [|ev l1 IH]; intros previous H1 H2; [done|].
  cbn [app relay_follows_download] in *. destruct H1 as [Hev H1].
  split; [done|]. apply IH; [done|].
  by rewrite last_default_cons in H2.
Qed.

Ltac delivered Hrel :=
  repeat match goal with
         | |- context [telegram ?env ?h ?ev] =>
             rewrite (Hrel h ev) by (intros ? ? ?; discriminate)
         end.

Ltac passive_events :=
  repeat (apply Forall_cons_2; [split; [reflexivity | discriminate]|]);
  apply Forall_nil_2.

(** With a reliable chat the download step never raises; it starts with
    the "processing" message, stays clear of the milestones after that,
    and when it hands back a file its last call is the "completed" edit
    for that file. *)
Lemma download_step_shape env self mega_link chat_id w :
  text_chat_reliable env →
  ∃ r tail w',
    download_from_public_link env self mega_link chat_id w = (Return r, w')
    ∧ trace w' = trace w
                 ++ EvSendMessage chat_id (processing_text mega_link) (Some "Markdown") :: tail
    ∧ Forall passive tail
    ∧ (∀ path, r = Some path →
         ∃ message file_name,
           last tail = Some (EvEditText message (completed_text file_name path)
                               (Some "Markdown"))).
Proof.
  intros Hrel. unfold_bot. delivered Hrel. cbn [trace fs record].
  destruct (get_public_file_info env _ mega_link) as [[info|]|e];
    cbn [trace fs record]; delivered Hrel; cbn [trace fs record].
  - destruct (format_size (info_size info)) as [size_text|e];
      cbn [trace fs record]; delivered Hrel; cbn [trace fs record].
    + destruct (download_from_url env _ mega_link (download_dir self) (info_name info))
        as [[saved data]|e]; cbn [trace fs record]; delivered Hrel; cbn [trace fs record].
      * eexists _, [_; _; _; _], _. split; [reflexivity|]. cbn [trace fs record].
        split; [rewrite <- !app_assoc; reflexivity|]. split; [passive_events|].
        intros path [= <-]. by eexists _, _.
      * eexists _, [_; _; _; _; _], _. split; [reflexivity|]. cbn [trace fs record].
        split; [rewrite <- !app_assoc; reflexivity|]. split; [passive_events|]. by intros.
    + eexists _, [_; _; _], _. split; [reflexivity|]. cbn [trace fs record].
      split; [rewrite <- !app_assoc; reflexivity|]. split; [passive_events|]. by intros.
  - eexists _, [_; _], _. split; [reflexivity|]. cbn [trace fs record].
    split; [rewrite <- !app_assoc; reflexivity|]. split; [passive_events|]. by intros.
  - eexists _, [_; _; _], _. split; [reflexivity|]. cbn [trace fs record].
    split; [rewrite <- !app_assoc; reflexivity|]. split; [passive_events|]. by intros.
Qed.

Lemma batch_error_passive (i : nat) (e : string) : passive (EvReplyText (batch_error i e)).
Proof.
  split; [reflexivity|]. by intros [=].
Qed.

(** With a reliable chat the relay step of the batch loop never raises:
    a failed opening, upload or removal ends in an error message. *)
Lemma relay_shape env i total path w :
  text_chat_reliable env →
  ∃ tail w',
    relay env (batch_caption i total) (batch_error i) path w = (Return (), w')
    ∧ trace w' = trace w ++ EvOpen path "rb" :: tail
    ∧ Forall passive tail.
Proof.
  intros Hrel. unfold_bot.
  destruct (fs w !! path) as [data|] eqn:Hfile; cbn [trace fs record].
  - match goal with
    | |- context [telegram env ?h (EvReplyDocument ?p ?f ?c)] =>
        destruct (telegram env h (EvReplyDocument p f c)) as [e|]
    end; cbn [trace fs record].
    + delivered Hrel. eexists [_; _], _. split; [reflexivity|]. cbn [trace fs record].
      split; [rewrite <- !app_assoc; reflexivity|].
      apply Forall_cons_2; [split; [reflexivity|discriminate]|].
      apply Forall_cons_2; [apply batch_error_passive|]. apply Forall_nil_2.
    + rewrite Hfile. eexists [_; _], _. split; [reflexivity|]. cbn [trace fs record].
      split; [rewrite <- !app_assoc; reflexivity|]. passive_events.
  - delivered Hrel. eexists [_], _. split; [reflexivity|]. cbn [trace fs record].
    split; [rewrite <- !app_assoc; reflexivity|].
    apply Forall_cons_2; [apply batch_error_passive|]. apply Forall_nil_2.
Qed.

Lemma milestone_announce (i total : nat) :
  milestone (EvReplyText (announce_text i total)) = true.
Proof. apply startswith_app. Qed.

Lemma announce_not_completed (i total : nat) :
  EvReplyText (announce_text i total) ≠ EvReplyText BATCH_COMPLETED.
Proof.
  by intros [=].
Qed.

Lemma last_cons_Some {A} (x y : A) (l : list A) :
  last l = Some y → last (x :: l) = Some y.
Proof. intros H. rewrite last_cons. by rewrite H. Qed.

Lemma relay_follows_download_not_open (previous : option Event) (events : list Event) :
  Forall (λ ev, ∀ path mode, ev ≠ EvOpen path mode) events →
  relay_follows_download previous events.
Proof.
  intros H. revert previous.
  induction H as [|ev events Hev _ IH]; intros previous; [done|].
  cbn [relay_follows_download]. split; [|apply IH].
  destruct ev; try done. by destruct (Hev path mode).
Qed.

Lemma passive_not_open (events : list Event) :
  Forall passive events → Forall (λ ev, ∀ path mode, ev ≠ EvOpen path mode) events.
Proof.
  intros H. eapply Forall_impl; [exact H|].
  intros ev [Hev _] path mode ->. discriminate.
Qed.

(** One turn of the batch loop: announcement, download step, relay step
    exactly when a file came back, pause; then the loop goes on with the
    next item, whatever happened to this one. *)
Lemma batch_loop_step env self update links i link todo w :
  text_chat_reliable env →
  ∃ item,
    batch_loop env self update links i (link :: todo) w
    = batch_loop env self update links (S i) todo (item_world env self update links i link w)
    ∧ trace (item_world env self update links i link w) = trace w ++ item
    ∧ List.filter milestone item
      = item_milestones (effective_chat_id update) (length links) i link
          (handed_over
             (fst (download_from_public_link env self link (effective_chat_id update)
                     (record (EvReplyText (announce_text i (length links))) w))))
    ∧ (∀ previous, relay_follows_download previous item)
    ∧ Forall (λ ev, ev ≠ EvReplyText BATCH_COMPLETED) item
    ∧ last item = Some (EvSleep 2).
Proof.
  intros Hrel. unfold item_world. cbn [batch_loop].
  unfold mbind, M_bind, bind, reply_text, telegram_call.
  delivered Hrel.
  set (ann := EvReplyText (announce_text i (length links))).
  destruct (download_step_shape env self link (effective_chat_id update) (record ann w) Hrel)
    as (r & tail & w2 & -> & Htr2 & Hpass2 & Hlast).
  set (sent := EvSendMessage (effective_chat_id update) (processing_text link)
                 (Some "Markdown")) in *.
  assert (Hquiet : ∀ previous, relay_follows_download previous (ann :: sent :: tail)).
  { intros previous. apply relay_follows_download_not_open.
    apply Forall_cons_2; [done|]. apply Forall_cons_2; [done|].
    by apply passive_not_open. }
  assert (Hclosing : Forall (λ ev, ev ≠ EvReplyText BATCH_COMPLETED) (ann :: sent :: tail)).
  { apply Forall_cons_2; [apply announce_not_completed|].
    apply Forall_cons_2; [done|].
    eapply Forall_impl; [exact Hpass2|]. by intros ev [_ H]. }
  assert (Hfilter : List.filter milestone (ann :: sent :: tail) = [ann; sent]).
  { cbn [List.filter]. unfold ann at 1. rewrite milestone_announce.
    cbn [milestone]. by rewrite (filter_passive _ Hpass2). }
  unfold if_downloaded, sleep, emit. cbn [fst snd handed_over].
  destruct r as [path|]; [destruct (truthy path) eqn:Hpath|].
  - destruct (relay_shape env i (length links) path w2 Hrel)
      as (tail3 & w3 & -> & Htr3 & Hpass3).
    destruct (Hlast path eq_refl) as (message & file_name' & Hdone).
    cbn [fst snd].
    exists ((ann :: sent :: tail) ++ EvOpen path "rb" :: tail3 ++ [EvSleep 2]).
    split; [reflexivity|]. split.
    { cbn [trace record]. rewrite Htr3, Htr2. cbn [trace record].
      rewrite <- !app_assoc. reflexivity. }
    split.
    { rewrite List.filter_app, Hfilter. cbn [List.filter milestone].
      rewrite List.filter_app, (filter_passive _ Hpass3). reflexivity. }
    split.
    { intros previous. apply relay_follows_download_app; [apply Hquiet|].
      rewrite (last_cons_Some _ _ _ (last_cons_Some _ _ _ Hdone)).
      cbn [from_option relay_follows_download]. split; [by eexists _, _|].
      apply relay_follows_download_not_open, Forall_app. split.
      - by apply passive_not_open.
      - by apply Forall_cons_2; [|apply Forall_nil_2]. }
    split.
    { apply Forall_app. split; [done|].
      apply Forall_cons_2; [done|]. apply Forall_app. split.
      - eapply Forall_impl; [exact Hpass3|]. by intros ev [_ H].
      - by apply Forall_cons_2; [|apply Forall_nil_2]. }
    rewrite app_comm_cons, (app_assoc _ _ [EvSleep 2]). apply last_snoc.
  - exists ((ann :: sent :: tail) ++ [EvSleep 2]).
    split; [reflexivity|]. split.
    { cbn [trace record]. rewrite Htr2. cbn [trace record].
      rewrite <- !app_assoc. reflexivity. }
    split; [by rewrite List.filter_app, Hfilter|].
    split.
    { intros previous. apply relay_follows_download_app; [apply Hquiet|].
      by apply relay_follows_download_not_open, Forall_cons_2; [|apply Forall_nil_2]. }
    split; [|apply last_snoc].
    apply Forall_app. split; [done|]. by apply Forall_cons_2; [|apply Forall_nil_2].
  - exists ((ann :: sent :: tail) ++ [EvSleep 2]).
    split; [reflexivity|]. split.
    { cbn [trace record]. rewrite Htr2. cbn [trace record].
      rewrite <- !app_assoc. reflexivity. }
    split; [by rewrite List.filter_app, Hfilter|].
    split.
    { intros previous. apply relay_follows_download_app; [apply Hquiet|].
      by apply relay_follows_download_not_open, Forall_cons_2; [|apply Forall_nil_2]. }
    split; [|apply last_snoc].
    apply Forall_app. split; [done|]. by apply Forall_cons_2; [|apply Forall_nil_2].
Qed.

Lemma batch_results_length env self update links todo i w :
  length (batch_results env self update links i todo w) = length todo.
Proof.
  revert i w. induction todo as [|link todo IH]; intros i w; [done|].
  cbn [batch_results length]. by rewrite IH.
Qed.

Lemma batch_loop_shape env self update links todo i w :
  text_chat_reliable env →
  ∃ body w',
    batch_loop env self update links i todo w = (Return (), w')
    ∧ trace w' = trace w ++ body
    ∧ List.filter milestone body
      = batch_milestones (effective_chat_id update) (length links) i todo
          (batch_results env self update links i todo w)
    ∧ (∀ previous, relay_follows_download previous body)
    ∧ Forall (λ ev, ev ≠ EvReplyText BATCH_COMPLETED) body
    ∧ (todo ≠ [] → last body = Some (EvSleep 2)).
Proof.
  intros Hrel. revert i w.
  induction todo as [|link todo IH]; intros i w.
  - exists [], w. split; [reflexivity|].
    split; [by rewrite app_nil_r|]. by repeat split.
  - destruct (batch_loop_step env self update links i link todo w Hrel)
      as (item & -> & Htr1 & Hfilter1 & Hrelay1 & Hclosing1 & Hlast1).
    destruct (IH (S i) (item_world env self update links i link w))
      as (body & w' & Hrun & Htr & Hfilter & Hrelay & Hclosing & Hlast).
    exists (item ++ body), w'.
    split; [done|].
    split; [by rewrite Htr, Htr1, <- app_assoc|].
    split.
    { rewrite List.filter_app, Hfilter1, Hfilter. reflexivity. }
    split; [intros previous; by apply relay_follows_download_app|].
    split; [by apply Forall_app|].
    intros _. rewrite last_app.
    destruct todo as [|link' todo].
    + cbn [batch_loop] in Hrun. unfold mret, M_ret, ret in Hrun.
      injection Hrun as <-.
      assert (body = []) as ->; [|done].
      apply (app_inv_head (trace (item_world env self update links i link w))).
      by rewrite app_nil_r.
    + by rewrite Hlast.
Qed.

Lemma run_batch_nonempty env self update links :
  links ≠ [] →
  run_batch env self update links
  = (reply_text env (found_text (length links));;
     batch_loop env self update links 1 links;;
     reply_text env BATCH_COMPLETED).
Proof. by destruct links. Qed.

(** C3 (as amended). For a plain-text list that decodes, from an
    authorized sender, with a chat that delivers its text calls: when no
    valid link is left, the handler reports "no valid links" and does
    nothing else.  Otherwise, with N links, it goes through them in
    order; each one is announced as "i/N", then the download step runs,
    then the relay step, which starts exactly when the download step
    handed a file over, right after the download reported as completed;
    a pause of 2 follows every item, the last one included, whether the
    item succeeded or not; nothing an item does stops the loop, and
    "batch completed" is sent once, after the last pause. *)
Theorem batch_processor env self update context w text :
  let document := message_document update in
  let temp_file := temp_file_of document in
  let links := parse_links (file_lines text) in
  let prologue := [EvGetFile (file_id document);
                   EvDownloadToDrive (file_id document) temp_file;
                   EvOpen temp_file "r";
                   EvRemove temp_file] in
  let start := {| fs := delete temp_file (fs w);
                  trace := trace w ++ prologue
                           ++ [EvReplyText (found_text (length links))] |} in
  authorized update = true →
  text_document document →
  read_text env (telegram_file env (file_id document)) = Return text →
  text_chat_reliable env →
  ∃ w',
    handle_document env self update context w = (Return (), w')
    ∧ (links = [] →
       w' = {| fs := delete temp_file (fs w);
               trace := trace w ++ prologue ++ [EvReplyText NO_VALID_LINKS] |})
    ∧ (links ≠ [] →
       ∃ body,
         trace w' = trace w ++ prologue ++ [EvReplyText (found_text (length links))]
                    ++ body ++ [EvReplyText BATCH_COMPLETED]
         ∧ List.filter milestone body
           = batch_milestones (effective_chat_id update) (length links) 1 links
               (batch_results env self update links 1 links start)
         ∧ length (batch_results env self update links 1 links start) = length links
         ∧ relay_follows_download None body
         ∧ last body = Some (EvSleep 2)
         ∧ EvReplyText BATCH_COMPLETED
           ∉ prologue ++ [EvReplyText (found_text (length links))] ++ body)
    ∧ (∀ i link todo w1,
         batch_loop env self update links i (link :: todo) w1
         = batch_loop env self update links (S i) todo
             (item_world env self update links i link w1)).
Proof.
  intros document temp_file links prologue start Hauth Htext Hread Hrel.
  rewrite (handle_document_prologue env self update context w text Hauth Htext)
    by (first [exact Hread | apply Hrel; intros ? ? ?; discriminate]).
  fold document temp_file links.
  assert (Hstep : ∀ i link todo w1,
            batch_loop env self update links i (link :: todo) w1
            = batch_loop env self update links (S i) todo
                (item_world env self update links i link w1)).
  { intros i link todo w1.
    by destruct (batch_loop_step env self update links i link todo w1 Hrel) as (item & H & _). }
  subst start. clearbody links.
  destruct (decide (links = [])) as [->|Hne].
  - unfold run_batch, reply_text, telegram_call. delivered Hrel.
    eexists. split; [reflexivity|]. split; [|done].
    intros _. unfold record. cbn [fs trace]. by rewrite <- app_assoc.
  - rewrite (run_batch_nonempty _ _ _ _ Hne).
    unfold mbind, M_bind, bind, reply_text, telegram_call. delivered Hrel.
    unfold record at 1. cbn [fs trace]. rewrite <- (app_assoc (trace w)).
    match goal with
    | |- context [batch_loop env self update links 1 links ?w1] =>
        destruct (batch_loop_shape env self update links links 1 w1 Hrel)
          as (body & w2 & -> & Htr & Hfilter & Hrelay & Hclosing & Hlast)
    end.
    delivered Hrel.
    eexists. split; [reflexivity|]. split; [done|]. split; [|exact Hstep].
    intros _. exists body.
    split.
    { cbn [trace record]. rewrite Htr. cbn [trace record].
      by rewrite <- !app_assoc. }
    split; [done|]. split; [apply batch_results_length|].
    split; [done|]. split; [by apply Hlast|].
    rewrite Forall_forall in Hclosing.
    intros [Hin | [Hin | Hin]%elem_of_app]%elem_of_app.
    + unfold prologue in Hin.
      repeat (apply elem_of_cons in Hin as [Hin | Hin]; [discriminate|]).
      by apply elem_of_nil in Hin.
    + by apply list_elem_of_singleton in Hin.
    + by apply (Hclosing _ Hin).
Qed.

Lemma upload_failing_env_text_reliable : text_chat_reliable upload_failing_env.
Proof.
  intros history ev Hev. destruct ev; try reflexivity.
  by destruct (Hev path filename caption).
Qed.

Lemma batch_processor_witness :
  ∃ w' body,
    handle_document upload_failing_env bot (owner_update "") {| args := [] |} empty_world
    = (Return (), w')
    ∧ trace w'
      = [EvGetFile "F1"; EvDownloadToDrive "F1" "temp_F1.txt";
         EvOpen "temp_F1.txt" "r"; EvRemove "temp_F1.txt"]
        ++ [EvReplyText (found_text 3)] ++ body ++ [EvReplyText BATCH_COMPLETED]
    ∧ List.filter milestone body
      = [EvReplyText "📥 Downloading 1/3...";
         EvSendMessage 42 (processing_text "https://mega.nz/file/AAA") (Some "Markdown");
         EvOpen "downloads/a.zip" "rb";
         EvSleep 2;
         EvReplyText "📥 Downloading 2/3...";
         EvSendMessage 42 (processing_text "https://mega.nz/file/BAD") (Some "Markdown");
         EvSleep 2;
         EvReplyText "📥 Downloading 3/3...";
         EvSendMessage 42 (processing_text "https://mega.nz/file/BBB") (Some "Markdown");
         EvOpen "downloads/a.zip" "rb";
         EvSleep 2]
    ∧ last body = Some (EvSleep 2).
Proof.
  destruct (batch_processor upload_failing_env bot (owner_update "") {| args := [] |}
              empty_world list_text) as (w' & Hrun & _ & Hbatch & _).
  - vm_compute. reflexivity.
  - left. reflexivity.
  - reflexivity.
  - apply upload_failing_env_text_reliable.
  - destruct Hbatch as (body & Htrace & Hfilter & _ & _ & Hlast & _).
    + vm_compute. discriminate.
    + exists w', body. split; [exact Hrun|]. split; [exact Htrace|].
      split; [|exact Hlast]. rewrite Hfilter. vm_compute. reflexivity.
Defined.

(** An item that fails can stop the batch: Mega refuses the lookup of
    the first of three links, the download step reports that by editing
    its message, Telegram refuses the edit, and the exception leaves the
    download step and the handler.  No pause follows the item, the two
    other links are not touched and no closing message is sent. *)
Lemma batch_stops_when_failure_report_fails :
  fst stalled_batch_run = Raise "Timed out"
  ∧ trace (snd stalled_batch_run)
    = [EvGetFile "F1"; EvDownloadToDrive "F1" "temp_F1.txt";
       EvOpen "temp_F1.txt" "r"; EvRemove "temp_F1.txt";
       EvReplyText "Found 3 valid Mega links. Starting batch download...";
       EvReplyText "📥 Downloading 1/3...";
       EvSendMessage 42 (processing_text "https://mega.nz/file/AAA") (Some "Markdown");
       EvGetPublicFileInfo "https://mega.nz/file/AAA";
       EvLogError "❌ Download failed: Connection refused";
       EvEditText 6 "❌ Download failed: Connection refused" None]
  ∧ (EvSleep 2 ∉ trace (snd stalled_batch_run))
  ∧ (EvReplyText BATCH_COMPLETED ∉ trace (snd stalled_batch_run)).
Proof.
  split; [vm_compute; reflexivity|].
  assert (Htrace : trace (snd stalled_batch_run)
    = [EvGetFile "F1"; EvDownloadToDrive "F1" "temp_F1.txt";
       EvOpen "temp_F1.txt" "r"; EvRemove "temp_F1.txt";
       EvReplyText "Found 3 valid Mega links. Starting batch download...";
       EvReplyText "📥 Downloading 1/3...";
       EvSendMessage 42 (processing_text "https://mega.nz/file/AAA") (Some "Markdown");
       EvGetPublicFileInfo "https://mega.nz/file/AAA";
       EvLogError "❌ Download failed: Connection refused";
       EvEditText 6 "❌ Download failed: Connection refused" None])
    by (vm_compute; reflexivity).
  split; [exact Htrace|]. rewrite Htrace.
  split; intros Hin.
  all: repeat (apply elem_of_cons in Hin as [Hin | Hin]; [discriminate|]).
  all: by apply elem_of_nil in Hin.
Qed.

(** A single download that goes through: the file is sent and removed. *)
Example download_and_relay :
  download_command reliable_env bot (owner_update "")
    {| args := ["https://mega.nz/file/X"] |} empty_world
  = (Return (),
     {| fs := ∅;
        trace :=
          [EvSendMessage 42 (processing_text "https://mega.nz/file/X") (Some "Markdown");
           EvGetPublicFileInfo "https://mega.nz/file/X";
           EvEditText 0 (info_text "a.zip" "2.00 KB") (Some "Markdown");
           EvDownloadFromUrl "https://mega.nz/file/X" "downloads" "a.zip";
           EvEditText 0 (completed_text "a.zip" "downloads/a.zip") (Some "Markdown");
           EvOpen "downloads/a.zip" "rb";
           EvReplyDocument "downloads/a.zip" "a.zip" "✅ Download completed: a.zip";
           EvRemove "downloads/a.zip"] |}).
Proof. vm_compute. reflexivity. Qed.

(** A batch of three links whose second one does not resolve: the first
    and the third are downloaded, relayed and removed, every item is
    followed by the pause, and the closing message is sent. *)
Example batch_with_a_failing_item :
  handle_document reliable_env bot (owner_update "") {| args := [] |} empty_world
  = (Return (),
     {| fs := ∅;
        trace :=
          [EvGetFile "F1"; EvDownloadToDrive "F1" "temp_F1.txt";
           EvOpen "temp_F1.txt" "r"; EvRemove "temp_F1.txt";
           EvReplyText "Found 3 valid Mega links. Starting batch download...";
           EvReplyText "📥 Downloading 1/3...";
           EvSendMessage 42 (processing_text "https://mega.nz/file/AAA") (Some "Markdown");
           EvGetPublicFileInfo "https://mega.nz/file/AAA";
           EvEditText 6 (info_text "a.zip" "2.00 KB") (Some "Markdown");
           EvDownloadFromUrl "https://mega.nz/file/AAA" "downloads" "a.zip";
           EvEditText 6 (completed_text "a.zip" "downloads/a.zip") (Some "Markdown");
           EvOpen "downloads/a.zip" "rb";
           EvReplyDocument "downloads/a.zip" "a.zip" "✅ 1/3: a.zip";
           EvRemove "downloads/a.zip";
           EvSleep 2;
           EvReplyText "📥 Downloading 2/3...";
           EvSendMessage 42 (processing_text "https://mega.nz/file/BAD") (Some "Markdown");
           EvGetPublicFileInfo "https://mega.nz/file/BAD";
           EvEditText 16 INVALID_LINK None;
           EvSleep 2;
           EvReplyText "📥 Downloading 3/3...";
           EvSendMessage 42 (processing_text "https://mega.nz/file/BBB") (Some "Markdown");
           EvGetPublicFileInfo "https://mega.nz/file/BBB";
           EvEditText 21 (info_text "a.zip" "2.00 KB") (Some "Markdown");
           EvDownloadFromUrl "https://mega.nz/file/BBB" "downloads" "a.zip";
           EvEditText 21 (completed_text "a.zip" "downloads/a.zip") (Some "Markdown");
           EvOpen "downloads/a.zip" "rb";
           EvReplyDocument "downloads/a.zip" "a.zip" "✅ 3/3: a.zip";
           EvRemove "downloads/a.zip";
           EvSleep 2;
           EvReplyText "✅ Batch download completed!"] |}).
Proof. vm_compute. reflexivity. Qed.

(** * Further properties of the code *)

Ltac flat := cbn [trace fs record]; rewrite <- ?app_assoc; cbn [app].

Ltac same_world :=
  unfold record, record_all; cbn [trace fs]; rewrite <- ?app_assoc; reflexivity.

(** ** The download step, path by path *)

(** X1. When the first call, the "processing" message, raises, the
    download step asks Mega nothing and edits nothing (there is no
    message to edit): it logs the error and hands back [None]. *)
Theorem download_step_without_message env self mega_link chat_id w e :
  let sent := EvSendMessage chat_id (processing_text mega_link) (Some "Markdown") in
  telegram env (trace w) sent = Some e →
  download_from_public_link env self mega_link chat_id w
  = (Return None, record_all [sent; EvLogError ("❌ Download failed: " +:+ e)] w).
Proof.
  intros sent Hsent. unfold_bot. fold sent. rewrite Hsent.
  unfold record, record_all. cbn [fs trace]. by rewrite <- app_assoc.
Qed.

Lemma download_step_without_message_witness :
  download_from_public_link chat_down_env bot "https://mega.nz/file/X" 42 empty_world
  = (Return None,
     record_all
       [EvSendMessage 42 (processing_text "https://mega.nz/file/X") (Some "Markdown");
        EvLogError "❌ Download failed: Network is unreachable"] empty_world).
Proof.
  apply (download_step_without_message chat_down_env bot "https://mega.nz/file/X" 42
           empty_world "Network is unreachable").
  reflexivity.
Defined.

(** X2. When the metadata lookup raises, the error is logged and written
    into the progress message, no download is started and no file is
    written.  The step hands back [None] if that edit is delivered; if
    the edit raises too, its exception leaves the step. *)
Theorem download_step_lookup_raises env self mega_link chat_id w e :
  let sent := EvSendMessage chat_id (processing_text mega_link) (Some "Markdown") in
  let error_msg := "❌ Download failed: " +:+ e in
  let report := EvEditText (length (trace w)) error_msg None in
  let before := trace w ++ [sent; EvGetPublicFileInfo mega_link; EvLogError error_msg] in
  telegram env (trace w) sent = None →
  get_public_file_info env (trace w ++ [sent]) mega_link = Raise e →
  download_from_public_link env self mega_link chat_id w
  = (match telegram env before report with
     | None => Return None
     | Some e' => Raise e'
     end,
     record_all [sent; EvGetPublicFileInfo mega_link; EvLogError error_msg; report] w).
Proof.
  intros sent error_msg report before Hsent Hinfo.
  unfold_bot. fold sent. rewrite Hsent. cbn [trace fs record].
  rewrite Hinfo. cbn [trace fs record].
  rewrite <- !app_assoc. cbn [app]. fold error_msg report before.
  destruct (telegram env before report); same_world.
Qed.

Lemma download_step_lookup_raises_witness :
  download_from_public_link mega_down_env bot "https://mega.nz/file/X" 42 empty_world
  = (Return None,
     record_all
       [EvSendMessage 42 (processing_text "https://mega.nz/file/X") (Some "Markdown");
        EvGetPublicFileInfo "https://mega.nz/file/X";
        EvLogError "❌ Download failed: Connection refused";
        EvEditText 0 "❌ Download failed: Connection refused" None] empty_world).
Proof.
  apply (download_step_lookup_raises mega_down_env bot "https://mega.nz/file/X" 42
           empty_world "Connection refused"); reflexivity.
Defined.

Lemma download_step_delivers env self mega_link chat_id w info size_text saved data :
  let message := length (trace w) in
  let sent := EvSendMessage chat_id (processing_text mega_link) (Some "Markdown") in
  let shown := EvEditText message (info_text (info_name info) size_text) (Some "Markdown") in
  let fetched := EvDownloadFromUrl mega_link (download_dir self) (info_name info) in
  let done := EvEditText message (completed_text (info_name info) saved) (Some "Markdown") in
  text_chat_reliable env →
  get_public_file_info env (trace w ++ [sent]) mega_link = Return (Some info) →
  format_size (info_size info) = Return size_text →
  download_from_url env (trace w ++ [sent; EvGetPublicFileInfo mega_link; shown])
    mega_link (download_dir self) (info_name info) = Return (saved, data) →
  download_from_public_link env self mega_link chat_id w
  = (Return (Some saved),
     {| fs := <[saved := data]> (fs w);
        trace := trace w ++ [sent; EvGetPublicFileInfo mega_link; shown; fetched; done] |}).
Proof.
  intros message sent shown fetched done Hrel Hinfo Hsize Hdl.
  unfold_bot. delivered Hrel. cbn [trace fs record]. fold sent.
  rewrite Hinfo. cbn [trace fs record]. rewrite Hsize. delivered Hrel.
  cbn [trace fs record]. rewrite <- !app_assoc. cbn [app]. fold message shown.
  rewrite Hdl. delivered Hrel. same_world.
Qed.

(** X3. When the lookup resolves, the size can be shown and Mega saves
    the file, the step makes five calls (message, lookup, edit with name
    and size, download, "completed" edit), hands back the path Mega
    reported and leaves the file at that path. *)
Theorem download_step_success env self mega_link chat_id w info size_text saved data :
  let message := length (trace w) in
  let sent := EvSendMessage chat_id (processing_text mega_link) (Some "Markdown") in
  let shown := EvEditText message (info_text (info_name info) size_text) (Some "Markdown") in
  let fetched := EvDownloadFromUrl mega_link (download_dir self) (info_name info) in
  let done := EvEditText message (completed_text (info_name info) saved) (Some "Markdown") in
  text_chat_reliable env →
  get_public_file_info env (trace w ++ [sent]) mega_link = Return (Some info) →
  format_size (info_size info) = Return size_text →
  download_from_url env (trace w ++ [sent; EvGetPublicFileInfo mega_link; shown])
    mega_link (download_dir self) (info_name info) = Return (saved, data) →
  download_from_public_link env self mega_link chat_id w
  = (Return (Some saved),
     {| fs := <[saved := data]> (fs w);
        trace := trace w ++ [sent; EvGetPublicFileInfo mega_link; shown; fetched; done] |}).
Proof.
  intros message sent shown fetched done Hrel Hinfo Hsize Hdl.
  unfold_bot. delivered Hrel. cbn [trace fs record]. fold sent.
  rewrite Hinfo. cbn [trace fs record]. rewrite Hsize. delivered Hrel.
  cbn [trace fs record]. rewrite <- !app_assoc. cbn [app]. fold message shown.
  rewrite Hdl. delivered Hrel. same_world.
Qed.

Lemma download_step_success_witness :
  download_from_public_link reliable_env bot "https://mega.nz/file/X" 42 empty_world
  = (Return (Some "downloads/a.zip"),
     {| fs := {["downloads/a.zip" := "data"]};
        trace :=
          [EvSendMessage 42 (processing_text "https://mega.nz/file/X") (Some "Markdown");
           EvGetPublicFileInfo "https://mega.nz/file/X";
           EvEditText 0 (info_text "a.zip" "2.00 KB") (Some "Markdown");
           EvDownloadFromUrl "https://mega.nz/file/X" "downloads" "a.zip";
           EvEditText 0 (completed_text "a.zip" "downloads/a.zip") (Some "Markdown")] |}).
Proof.
  apply (download_step_success reliable_env bot "https://mega.nz/file/X" 42 empty_world
           {| info_name := "a.zip"; info_size := 2048 |} "2.00 KB" "downloads/a.zip" "data").
  - intros history ev _. reflexivity.
  - reflexivity.
  - reflexivity.
  - reflexivity.
Defined.

(** X4. When Mega has saved the file but the "completed" edit raises,
    the [except] clause takes over: the error goes to the log and into
    the progress message, and the step hands back [None] although the
    file is on disk; no caller will relay or remove it. *)
Theorem download_step_keeps_file_when_last_edit_fails
    env self mega_link chat_id w info size_text saved data e :
  let message := length (trace w) in
  let sent := EvSendMessage chat_id (processing_text mega_link) (Some "Markdown") in
  let shown := EvEditText message (info_text (info_name info) size_text) (Some "Markdown") in
  let fetched := EvDownloadFromUrl mega_link (download_dir self) (info_name info) in
  let done := EvEditText message (completed_text (info_name info) saved) (Some "Markdown") in
  let error_msg := "❌ Download failed: " +:+ e in
  let report := EvEditText message error_msg None in
  let before := trace w ++ [sent; EvGetPublicFileInfo mega_link; shown; fetched] in
  telegram env (trace w) sent = None →
  get_public_file_info env (trace w ++ [sent]) mega_link = Return (Some info) →
  format_size (info_size info) = Return size_text →
  telegram env (trace w ++ [sent; EvGetPublicFileInfo mega_link]) shown = None →
  download_from_url env (trace w ++ [sent; EvGetPublicFileInfo mega_link; shown])
    mega_link (download_dir self) (info_name info) = Return (saved, data) →
  telegram env before done = Some e →
  telegram env (before ++ [done; EvLogError error_msg]) report = None →
  download_from_public_link env self mega_link chat_id w
  = (Return None,
     {| fs := <[saved := data]> (fs w);
        trace := before ++ [done; EvLogError error_msg; report] |}).
Proof.
  intros message sent shown fetched done error_msg report before
    Hsent Hinfo Hsize Hshown Hdl Hdone Hreport.
  unfold_bot. fold sent. rewrite Hsent. flat.
  rewrite Hinfo. flat. rewrite Hsize. flat.
  fold message shown. rewrite Hshown. flat.
  rewrite Hdl. flat.
  fold fetched done before. rewrite Hdone. flat.
  fold error_msg report before. rewrite Hreport. same_world.
Qed.

Lemma download_step_keeps_file_when_last_edit_fails_witness :
  download_from_public_link last_edit_failing_env bot "https://mega.nz/file/X" 42 empty_world
  = (Return None,
     {| fs := {["downloads/a.zip" := "data"]};
        trace :=
          [EvSendMessage 42 (processing_text "https://mega.nz/file/X") (Some "Markdown");
           EvGetPublicFileInfo "https://mega.nz/file/X";
           EvEditText 0 (info_text "a.zip" "2.00 KB") (Some "Markdown");
           EvDownloadFromUrl "https://mega.nz/file/X" "downloads" "a.zip";
           EvEditText 0 (completed_text "a.zip" "downloads/a.zip") (Some "Markdown");
           EvLogError "❌ Download failed: Timed out";
           EvEditText 0 "❌ Download failed: Timed out" None] |}).
Proof.
  apply (download_step_keeps_file_when_last_edit_fails last_edit_failing_env bot
           "https://mega.nz/file/X" 42 empty_world
           {| info_name := "a.zip"; info_size := 2048 |} "2.00 KB" "downloads/a.zip" "data"
           "Timed out"); reflexivity.
Defined.

(** Case analysis on every answer the collaborators may give. *)
Ltac explore :=
  repeat (cbn [trace fs record fst snd] in *;
          match goal with
          | |- context [match ?x with _ => _ end] =>
              lazymatch x with
              | context [match _ with _ => _ end] => fail
              | _ => destruct x eqn:?
              end
          end);
  cbn [trace fs record fst snd] in *.

(** X5. Whatever Telegram and Mega answer, the download step leaves the
    file system as it was or with the one file Mega saved added; it
    never removes a file.  And a path it hands back names a file that is
    there. *)
Theorem download_step_file_system env self mega_link chat_id w :
  (fs (snd (download_from_public_link env self mega_link chat_id w)) = fs w
   ∨ ∃ saved data,
       fs (snd (download_from_public_link env self mega_link chat_id w))
       = <[saved := data]> (fs w))
  ∧ (∀ path,
       fst (download_from_public_link env self mega_link chat_id w) = Return (Some path) →
       is_Some (fs (snd (download_from_public_link env self mega_link chat_id w)) !! path)).
Proof.
  unfold_bot. explore; (split; [eauto|]); intros path Hpath; simplify_eq;
    rewrite lookup_insert_eq; eauto.
Qed.

Lemma download_step_file_system_witness :
  is_Some (fs (snd (download_from_public_link reliable_env bot "https://mega.nz/file/X" 42
                      empty_world)) !! "downloads/a.zip").
Proof.
  apply (proj2 (download_step_file_system reliable_env bot "https://mega.nz/file/X" 42
                  empty_world)).
  reflexivity.
Defined.

(** X6. Whatever Telegram and Mega answer, the download step starts with
    its "processing" message and after that only asks Mega, writes to
    the log and edits that one message: it sends no second message, no
    reply, opens or removes no file and never sleeps. *)
Theorem download_step_events env self mega_link chat_id w :
  ∃ new,
    trace (snd (download_from_public_link env self mega_link chat_id w))
    = trace w ++ EvSendMessage chat_id (processing_text mega_link) (Some "Markdown") :: new
    ∧ Forall (progress_event (length (trace w))) new.
Proof.
  unfold_bot. explore;
    match goal with
    | |- ∃ new, ?l = _ ∧ _ =>
        rewrite <- ?app_assoc; cbn [app]; eexists; split; [reflexivity|]
    end; repeat constructor.
Qed.

(** ** The relay step *)

(** X7. Whatever happens, the relay step leaves the file system as it
    was or with the relayed file removed: no other file is touched and
    nothing is written. *)
Theorem relay_file_system env caption error_text path w :
  fs (snd (relay env caption error_text path w)) = fs w
  ∨ fs (snd (relay env caption error_text path w)) = delete path (fs w).
Proof. unfold_bot. explore; eauto. Qed.

(** X8. A relay that fails is reported in the chat and changes no file.
    If the file is missing, the upload is not attempted and the error
    text carries what the platform says of the missing file; if the
    upload raises, the error text carries that exception and the file
    stays where it is. *)
Theorem relay_failure_is_reported env caption error_text path w :
  (fs w !! path = None →
   snd (relay env caption error_text path w)
   = record_all [EvOpen path "rb"; EvReplyText (error_text (no_such_file env path))] w)
  ∧ (∀ data e,
       fs w !! path = Some data →
       telegram env (trace w ++ [EvOpen path "rb"])
         (EvReplyDocument path (basename path) (caption (basename path))) = Some e →
       snd (relay env caption error_text path w)
       = record_all [EvOpen path "rb";
                     EvReplyDocument path (basename path) (caption (basename path));
                     EvReplyText (error_text e)] w).
Proof.
  split.
  - intros Hfile. unfold_bot. rewrite Hfile. explore; same_world.
  - intros data e Hfile Hup. unfold_bot. rewrite Hfile. flat. rewrite Hup.
    explore; same_world.
Qed.

Lemma relay_failure_is_reported_witness :
  snd (relay reliable_env single_caption single_error "downloads/a.zip" empty_world)
  = record_all
      [EvOpen "downloads/a.zip" "rb";
       EvReplyText "❌ Error sending file: [Errno 2] No such file or directory: 'downloads/a.zip'"]
      empty_world
  ∧ snd (relay upload_failing_env single_caption single_error "downloads/a.zip"
           {| fs := {["downloads/a.zip" := "data"]}; trace := [] |})
    = {| fs := {["downloads/a.zip" := "data"]};
         trace := [EvOpen "downloads/a.zip" "rb";
                   EvReplyDocument "downloads/a.zip" "a.zip" "✅ Download completed: a.zip";
                   EvReplyText "❌ Error sending file: Request Entity Too Large"] |}.
Proof.
  split.
  - exact (proj1 (relay_failure_is_reported reliable_env single_caption single_error
                    "downloads/a.zip" empty_world) eq_refl).
  - exact (proj2 (relay_failure_is_reported upload_failing_env single_caption single_error
                    "downloads/a.zip" {| fs := {["downloads/a.zip" := "data"]}; trace := [] |})
             "data" "Request Entity Too Large" eq_refl eq_refl).
Defined.

(** ** The handlers *)

(** X9. A download command whose first argument does not begin with the
    Mega prefix gets one reply, the request for a valid link, and
    nothing else happens; further arguments are ignored. *)
Theorem download_command_rejects_other_links env self update context mega_link rest w :
  effective_user_id update ∈ AUTHORIZED_USERS →
  args context = mega_link :: rest →
  startswith mega_link MEGA_PREFIX = false →
  snd (download_command env self update context w)
  = record (EvReplyText "❌ Please provide a valid Mega.nz link") w.
Proof.
  intros Hin Hargs Hlink. unfold download_command, authorized.
  rewrite (bool_decide_eq_true_2 _ Hin), Hargs, Hlink. cbn [negb].
  unfold reply_text, telegram_call. by destruct (telegram _ _ _).
Qed.

Lemma download_command_rejects_other_links_witness :
  snd (download_command reliable_env bot (owner_update "")
         {| args := ["http://mega.nz/file/AAA"; "https://mega.nz/file/BBB"] |} empty_world)
  = record (EvReplyText "❌ Please provide a valid Mega.nz link") empty_world.
Proof.
  apply (download_command_rejects_other_links reliable_env bot (owner_update "")
           {| args := ["http://mega.nz/file/AAA"; "https://mega.nz/file/BBB"] |}
           "http://mega.nz/file/AAA" ["https://mega.nz/file/BBB"] empty_world).
  - vm_compute. left.
  - reflexivity.
  - reflexivity.
Defined.

(** X10. A text message that does not begin with the Mega prefix gets
    one reply, the request for a valid public link, and nothing else
    happens: a link in the middle of a sentence is not picked up. *)
Theorem handle_message_rejects_other_text env self update context w :
  effective_user_id update ∈ AUTHORIZED_USERS →
  startswith (message_text update) MEGA_PREFIX = false →
  snd (handle_message env self update context w)
  = record (EvReplyText "Please send a valid Mega.nz public link") w.
Proof.
  intros Hin Htext. unfold handle_message, authorized.
  rewrite (bool_decide_eq_true_2 _ Hin), Htext. cbn [negb].
  unfold reply_text, telegram_call. by destruct (telegram _ _ _).
Qed.

Lemma handle_message_rejects_other_text_witness :
  snd (handle_message reliable_env bot (owner_update "see https://mega.nz/file/AAA")
         {| args := [] |} empty_world)
  = record (EvReplyText "Please send a valid Mega.nz public link") empty_world.
Proof.
  apply handle_message_rejects_other_text.
  - vm_compute. left.
  - reflexivity.
Defined.

(** X11. A document that is not declared as plain text and whose name
    does not end in ".txt" gets one reply, the request for a text file:
    it is not fetched and no temporary file is written.  When such a
    document has no name at all, the test itself raises and the handler
    ends with that exception before any call is made. *)
Theorem handle_document_rejects_other_documents env self update context w :
  effective_user_id update ∈ AUTHORIZED_USERS →
  mime_type (message_document update) ≠ Some "text/plain" →
  (∀ file_name',
     file_name (message_document update) = Some file_name' →
     endswith file_name' ".txt" = false →
     snd (handle_document env self update context w)
     = record (EvReplyText NOT_A_TEXT_FILE) w)
  ∧ (file_name (message_document update) = None →
     handle_document env self update context w
     = (Raise "'NoneType' object has no attribute 'endswith'", w)).
Proof.
  intros Hin Hmime. unfold handle_document, authorized.
  rewrite (bool_decide_eq_true_2 _ Hin). cbn [negb].
  unfold is_text_document. rewrite (bool_decide_eq_false_2 _ Hmime).
  split.
  - intros n Hname Htxt. rewrite Hname. unfold_bot. rewrite Htxt.
    by destruct (telegram _ _ _).
  - intros Hname. rewrite Hname. reflexivity.
Qed.

Lemma handle_document_rejects_other_documents_witness :
  snd (handle_document reliable_env bot picture_update {| args := [] |} empty_world)
  = record (EvReplyText NOT_A_TEXT_FILE) empty_world.
Proof.
  destruct (handle_document_rejects_other_documents reliable_env bot picture_update
              {| args := [] |} empty_world) as [H _].
  - vm_compute. left.
  - discriminate.
  - apply (H "cat.png"); reflexivity.
Defined.

Lemma relay_returns env caption error_text path w :
  text_chat_reliable env → fst (relay env caption error_text path w) = Return ().
Proof.
  intros Hrel. unfold_bot.
  destruct (fs w !! path) as [data|] eqn:Hfile; flat.
  - match goal with
    | |- context [telegram env ?h (EvReplyDocument ?p ?f ?c)] =>
        destruct (telegram env h (EvReplyDocument p f c))
    end; flat; delivered Hrel; rewrite ?Hfile; reflexivity.
  - delivered Hrel. reflexivity.
Qed.

Lemma pipeline_returns env self mega_link chat_id w :
  text_chat_reliable env →
  fst ((downloaded_file ← download_from_public_link env self mega_link chat_id;
        if_downloaded downloaded_file (relay env single_caption single_error)) w)
  = Return ().
Proof.
  intros Hrel. unfold mbind, M_bind, bind.
  destruct (download_step_shape env self mega_link chat_id w Hrel)
    as (r & tail & w' & -> & _).
  unfold if_downloaded. destruct r as [path|]; [|reflexivity].
  destruct (truthy path); [|reflexivity]. by apply relay_returns.
Qed.

Lemma run_batch_returns env self update links w :
  text_chat_reliable env → fst (run_batch env self update links w) = Return ().
Proof.
  intros Hrel. destruct (decide (links = [])) as [->|Hne].
  - unfold run_batch, reply_text, telegram_call. delivered Hrel. reflexivity.
  - rewrite (run_batch_nonempty _ _ _ _ Hne).
    unfold mbind, M_bind, bind, reply_text, telegram_call. delivered Hrel.
    match goal with
    | |- context [batch_loop env self update links 1 links ?w1] =>
        destruct (batch_loop_shape env self update links links 1 w1 Hrel)
          as (body & w2 & -> & _)
    end.
    delivered Hrel. reflexivity.
Qed.

(** X12. With a chat that delivers text, no exception leaves the start
    command, the download command or the message handler, whoever the
    sender is and whatever Mega and the uploads do: every failure of a
    lookup, a download or an upload ends as a message.  The same holds
    of the document handler for a document that is declared as plain
    text or has a name, provided its bytes decode as text. *)
Theorem handlers_return env self update context w :
  text_chat_reliable env →
  fst (start_command env update context w) = Return ()
  ∧ fst (download_command env self update context w) = Return ()
  ∧ fst (handle_message env self update context w) = Return ()
  ∧ (mime_type (message_document update) = Some "text/plain"
     ∨ is_Some (file_name (message_document update)) →
     (∃ text,
        read_text env (telegram_file env (file_id (message_document update)))
        = Return text) →
     fst (handle_document env self update context w) = Return ()).
Proof.
  intros Hrel.
  assert (Hreply : ∀ text w0, fst (reply_text env text w0) = Return ()).
  { intros text w0. unfold reply_text, telegram_call. delivered Hrel. reflexivity. }
  split; [|split; [|split]].
  - unfold start_command. destruct (negb (authorized update)); apply Hreply.
  - unfold download_command. destruct (negb (authorized update)); [apply Hreply|].
    destruct (args context) as [|mega_link rest]; [apply Hreply|].
    destruct (negb (startswith mega_link MEGA_PREFIX)); [apply Hreply|].
    by apply pipeline_returns.
  - unfold handle_message. destruct (negb (authorized update)); [apply Hreply|].
    cbn zeta. destruct (startswith (message_text update) MEGA_PREFIX); [|apply Hreply].
    by apply pipeline_returns.
  - intros Hdoc [text Hread]. unfold handle_document.
    destruct (negb (authorized update)); [apply Hreply|]. cbn zeta.
    unfold mbind at 1, M_bind, bind.
    assert (Htest : ∃ b, is_text_document (message_document update) w = (Return b, w)).
    { unfold is_text_document. case_bool_decide; [by eexists|].
      destruct Hdoc as [Hmime | [n Hn]]; [done|]. rewrite Hn. by eexists. }
    destruct Htest as [[] ->]; [|apply Hreply].
    unfold get_file, telegram_call, download_to_drive, open_file, os_remove, lift,
      mbind, M_bind, bind.
    delivered Hrel. flat. delivered Hrel. flat.
    rewrite lookup_insert_eq. rewrite Hread. flat. rewrite lookup_insert_eq.
    by apply run_batch_returns.
Qed.

Lemma handlers_return_witness :
  fst (handle_message upload_failing_env bot (owner_update "https://mega.nz/file/X")
         {| args := [] |} empty_world) = Return ()
  ∧ fst (handle_document mega_down_env bot (owner_update "") {| args := [] |} empty_world)
    = Return ().
Proof.
  split.
  - destruct (handlers_return upload_failing_env bot (owner_update "https://mega.nz/file/X")
                {| args := [] |} empty_world upload_failing_env_text_reliable)
      as (_ & _ & H & _).
    exact H.
  - destruct (handlers_return mega_down_env bot (owner_update "") {| args := [] |} empty_world)
      as (_ & _ & _ & H).
    + intros history ev _. reflexivity.
    + apply H; [left; reflexivity|]. exists list_text. reflexivity.
Defined.

(** X13. A free-text message that is a Mega link is handled exactly like
    the download command with that link as its first argument: same
    calls, same result, same files. *)
Theorem message_and_command_agree env self update context context' mega_link rest w :
  message_text update = mega_link →
  args context' = mega_link :: rest →
  startswith mega_link MEGA_PREFIX = true →
  handle_message env self update context w = download_command env self update context' w.
Proof.
  intros Htext Hargs Hlink. unfold handle_message, download_command.
  by rewrite Htext, Hargs, Hlink.
Qed.

Lemma message_and_command_agree_witness :
  handle_message reliable_env bot (owner_update "https://mega.nz/file/X") {| args := [] |}
    empty_world
  = download_command reliable_env bot (owner_update "https://mega.nz/file/X")
      {| args := ["https://mega.nz/file/X"; "ignored"] |} empty_world.
Proof.
  apply (message_and_command_agree reliable_env bot (owner_update "https://mega.nz/file/X")
           {| args := [] |} {| args := ["https://mega.nz/file/X"; "ignored"] |}
           "https://mega.nz/file/X" ["ignored"] empty_world); reflexivity.
Defined.

(** X14. A download command that goes through makes eight calls, the
    five of the download step, then opening, upload and removal, and
    ends with no file at the path Mega saved to: the file is gone even
    if a file of that name was there before the command. *)
Theorem download_command_round_trip
    env self update context mega_link rest w info size_text saved data :
  let chat_id := effective_chat_id update in
  let message := length (trace w) in
  let sent := EvSendMessage chat_id (processing_text mega_link) (Some "Markdown") in
  let shown := EvEditText message (info_text (info_name info) size_text) (Some "Markdown") in
  let fetched := EvDownloadFromUrl mega_link (download_dir self) (info_name info) in
  let done := EvEditText message (completed_text (info_name info) saved) (Some "Markdown") in
  (∀ history ev, telegram env history ev = None) →
  effective_user_id update ∈ AUTHORIZED_USERS →
  args context = mega_link :: rest →
  startswith mega_link MEGA_PREFIX = true →
  get_public_file_info env (trace w ++ [sent]) mega_link = Return (Some info) →
  format_size (info_size info) = Return size_text →
  download_from_url env (trace w ++ [sent; EvGetPublicFileInfo mega_link; shown])
    mega_link (download_dir self) (info_name info) = Return (saved, data) →
  truthy saved = true →
  download_command env self update context w
  = (Return (),
     {| fs := delete saved (fs w);
        trace := trace w ++ [sent; EvGetPublicFileInfo mega_link; shown; fetched; done;
                             EvOpen saved "rb";
                             EvReplyDocument saved (basename saved)
                               (single_caption (basename saved));
                             EvRemove saved] |}).
Proof.
  intros chat_id message sent shown fetched done Hall Hin Hargs Hlink Hinfo Hsize Hdl Hsaved.
  unfold download_command, authorized.
  rewrite (bool_decide_eq_true_2 _ Hin), Hargs, Hlink. cbn [negb].
  unfold mbind, M_bind, bind. fold chat_id.
  rewrite (download_step_delivers env self mega_link chat_id w info size_text saved data
             (λ history ev _, Hall history ev) Hinfo Hsize Hdl).
  unfold if_downloaded. rewrite Hsaved. unfold_bot. flat.
  rewrite lookup_insert_eq. flat. rewrite (Hall _ _). flat.
  rewrite lookup_insert_eq. rewrite delete_insert_eq. reflexivity.
Qed.

Lemma download_command_round_trip_witness :
  download_command reliable_env bot (owner_update "")
    {| args := ["https://mega.nz/file/X"] |}
    {| fs := {["downloads/a.zip" := "an older file"]}; trace := [] |}
  = (Return (),
     {| fs := ∅;
        trace :=
          [EvSendMessage 42 (processing_text "https://mega.nz/file/X") (Some "Markdown");
           EvGetPublicFileInfo "https://mega.nz/file/X";
           EvEditText 0 (info_text "a.zip" "2.00 KB") (Some "Markdown");
           EvDownloadFromUrl "https://mega.nz/file/X" "downloads" "a.zip";
           EvEditText 0 (completed_text "a.zip" "downloads/a.zip") (Some "Markdown");
           EvOpen "downloads/a.zip" "rb";
           EvReplyDocument "downloads/a.zip" "a.zip" "✅ Download completed: a.zip";
           EvRemove "downloads/a.zip"] |}).
Proof.
  exact (download_command_round_trip reliable_env bot (owner_update "")
           {| args := ["https://mega.nz/file/X"] |} "https://mega.nz/file/X" []
           {| fs := {["downloads/a.zip" := "an older file"]}; trace := [] |}
           {| info_name := "a.zip"; info_size := 2048 |} "2.00 KB" "downloads/a.zip" "data"
           (λ _ _, eq_refl) (list_elem_of_here _ _) eq_refl eq_refl eq_refl eq_refl eq_refl
           eq_refl).
Defined.

(** X15. When the list file cannot be fetched, the exception leaves the
    document handler: [get_file] and [download_to_drive] are called
    outside any [try].  No link is read, nothing is downloaded, and no
    temporary file is left. *)
Theorem handle_document_fetch_failure env self update context w e :
  let document := message_document update in
  let got := EvGetFile (file_id document) in
  let fetched := EvDownloadToDrive (file_id document) (temp_file_of document) in
  effective_user_id update ∈ AUTHORIZED_USERS →
  text_document document →
  (telegram env (trace w) got = Some e →
   handle_document env self update context w = (Raise e, record got w))
  ∧ (telegram env (trace w) got = None →
     telegram env (trace w ++ [got]) fetched = Some e →
     handle_document env self update context w = (Raise e, record_all [got; fetched] w)).
Proof.
  intros document got fetched Hin Htext. subst document got fetched.
  assert (Hstart : ∀ k : bool → M unit,
             (is_text ← is_text_document (message_document update); k is_text) w
             = k true w).
  { intros k. unfold mbind, M_bind, bind.
    by rewrite (is_text_document_true _ _ Htext). }
  unfold handle_document, authorized.
  rewrite (bool_decide_eq_true_2 _ Hin). cbn [negb]. cbn zeta.
  rewrite Hstart.
  unfold get_file, telegram_call, download_to_drive, mbind, M_bind, bind.
  split.
  - intros Hgot. by rewrite Hgot.
  - intros Hgot Hfetched. rewrite Hgot. flat. rewrite Hfetched. same_world.
Qed.

Lemma handle_document_fetch_failure_witness :
  handle_document chat_down_env bot (owner_update "") {| args := [] |} empty_world
  = (Raise "Network is unreachable", record (EvGetFile "F1") empty_world).
Proof.
  destruct (handle_document_fetch_failure chat_down_env bot (owner_update "")
              {| args := [] |} empty_world "Network is unreachable") as [H _].
  - vm_compute. left.
  - left. reflexivity.
  - apply H. reflexivity.
Defined.

(** ** Size formatter: which unit, which number *)

Section Magnitude.

Local Open Scope Z_scope.

Lemma round53_exact (n : Z) : 0 ≤ n < 2 ^ 53 → round53 n = n.
Proof.
  intros [H0 Hlt]. destruct (Z.eq_dec n 0) as [->|Hne]; [reflexivity|].
  assert (HL : Z.log2 n < 53) by (apply Z.log2_lt_pow2; lia).
  unfold round53, ulp. rewrite Z.max_l by lia. change (2 ^ 0) with 1.
  unfold round_half_even. rewrite Z.div_1_r, Z.mod_1_r.
  change (2 * 0 <? 1) with true. cbn iota. lia.
Qed.

Lemma round53_below (n k : Z) :
  0 ≤ n → 0 ≤ k < 53 → (round53 n <? 2 ^ k) = (n <? 2 ^ k).
Proof.
  intros H0 Hk.
  assert (Hpow : 2 ^ k < 2 ^ 53) by (apply Z.pow_lt_mono_r; lia).
  assert (Hexact : round53 (2 ^ k) = 2 ^ k).
  { apply round53_exact. split; [apply Z.pow_nonneg; lia | done]. }
  destruct (Z.ltb_spec n (2 ^ k)) as [Hlt|Hge].
  - rewrite round53_exact by lia. by apply Z.ltb_lt.
  - apply Z.ltb_ge. rewrite <- Hexact. apply round53_mono.
    split; [apply Z.pow_nonneg; lia | done].
Qed.

Lemma magnitude_of_range (n k : Z) :
  0 ≤ k ≤ 5 → 2 ^ (10 * k) ≤ n → (k < 5 → n < 2 ^ (10 * k + 10)) → magnitude n = k.
Proof.
  intros Hk Hlo Hhi.
  assert (Hpos : 0 < n).
  { eapply Z.lt_le_trans; [|exact Hlo]. apply Z.pow_pos_nonneg; lia. }
  assert (HL : 10 * k ≤ Z.log2 n) by (apply Z.log2_le_pow2; [done | lia]).
  unfold magnitude.
  destruct (Z.eq_dec k 5) as [->|Hne].
  - apply Z.min_l. apply Z.div_le_lower_bound; lia.
  - assert (HU : Z.log2 n < 10 * k + 10) by (apply Z.log2_lt_pow2; [done | apply Hhi; lia]).
    assert (Z.log2 n / 10 = k) as ->; [|lia].
    symmetry. apply (Z.div_unique _ _ _ (Z.log2 n - 10 * k)); lia.
Qed.

End Magnitude.

(** X16. For every size that fits a float, [format_size] returns the
    text made of a number with two decimals, a blank and a unit, where
    the unit is the 1024-magnitude of the size, capped at PB, and the
    number is the converted size over that power of 1024, rounded to
    hundredths: the rounding of the conversion never moves a size into
    another unit.  Below 2^53 the conversion is exact, so the only
    rounding is the one to two decimals. *)
Theorem format_size_unit_by_magnitude (n : Z) :
  (0 ≤ n ≤ MAX_CONVERTIBLE)%Z →
  format_size n
  = Return (render_2f false (hundredths (Float (round53 n) (-10 * magnitude n)))
            +:+ " " +:+ nth (Z.to_nat (magnitude n)) UNITS "PB")
  ∧ size_parts n
    = Return (Float (round53 n) (-10 * magnitude n),
              nth (Z.to_nat (magnitude n)) UNITS "PB")
  ∧ ((n < 2 ^ 53)%Z → round53 n = n).
Proof.
  intros [H0 Hmax].
  assert (Hparts : size_parts n
                   = Return (Float (round53 n) (-10 * magnitude n),
                             nth (Z.to_nat (magnitude n)) UNITS "PB"));
    [|split; [|split; [exact Hparts | intros Hlt; apply round53_exact; lia]]].
  2: { rewrite format_size_parts, Hparts. cbn [bind_outcome]. unfold show_parts.
       cbn [fst snd mant].
       by rewrite (proj2 (Z.ltb_ge _ _) (round53_nonneg n H0)). }
  rewrite (size_parts_nonneg n H0 (round53_fits n (conj H0 Hmax))).
  rewrite !round53_below by lia.
  destruct (Z.ltb_spec n 1024) as [H10|H10].
  { destruct (Z.eq_dec n 0) as [->|Hne]; [reflexivity|].
    by rewrite (magnitude_of_range n 0) by (change (2 ^ (10 * 0 + 10))%Z with 1024%Z;
                                            cbn; lia). }
  destruct (Z.ltb_spec n (2 ^ 20)) as [H20|H20].
  { by rewrite (magnitude_of_range n 1) by (cbn [Z.mul Z.add Pos.mul Pos.add]; lia). }
  destruct (Z.ltb_spec n (2 ^ 30)) as [H30|H30].
  { by rewrite (magnitude_of_range n 2) by (cbn [Z.mul Z.add Pos.mul Pos.add]; lia). }
  destruct (Z.ltb_spec n (2 ^ 40)) as [H40|H40].
  { by rewrite (magnitude_of_range n 3) by (cbn [Z.mul Z.add Pos.mul Pos.add]; lia). }
  destruct (Z.ltb_spec n (2 ^ 50)) as [H50|H50].
  { by rewrite (magnitude_of_range n 4) by (cbn [Z.mul Z.add Pos.mul Pos.add]; lia). }
  by rewrite (magnitude_of_range n 5) by (cbn [Z.mul Z.add Pos.mul Pos.add]; lia).
Qed.

Lemma format_size_unit_by_magnitude_witness :
  format_size 5000000 = Return "4.77 MB"
  ∧ size_parts 5000000 = Return (Float 5000000 (-20), "MB")
  ∧ round53 5000000 = 5000000%Z.
Proof.
  destruct (format_size_unit_by_magnitude 5000000) as (H0 & H1 & H2).
  - vm_compute. split; discriminate.
  - split; [exact H0|]. split; [exact H1|]. apply H2. reflexivity.
Defined.

Lemma hundredths_of_integer (m : Z) : hundredths (Float m 0) = (100 * Z.abs m)%Z.
Proof. unfold hundredths. cbn [mant expo Z.leb Z.compare]. change (2 ^ 0)%Z with 1%Z. lia. Qed.

Lemma render_whole (negative : bool) (a : Z) :
  (0 ≤ a)%Z →
  render_2f negative (100 * a)
  = (if negative then "-" else "") +:+ pretty a +:+ ".00".
Proof.
  intros Ha. unfold render_2f.
  replace (100 * a / 100)%Z with a by (rewrite Z.mul_comm, Z.div_mul; lia).
  replace ((100 * a) mod 100)%Z with 0%Z by (rewrite Z.mul_comm, Z.mod_mul; lia).
  reflexivity.
Qed.

Lemma append_assoc (s t u : string) : (s +:+ t) +:+ u = s +:+ (t +:+ u).
Proof. induction s as [|c s IH]; [reflexivity|]. rewrite !append_cons. by rewrite IH. Qed.

(** X17. A size below 1024 is shown as that many bytes, with ".00". *)
Theorem format_size_bytes (n : Z) :
  (0 ≤ n < 1024)%Z → format_size n = Return (pretty n +:+ ".00 B").
Proof.
  intros [H0 Hlt].
  assert (Hexact : round53 n = n) by (apply round53_exact; lia).
  assert (Hfit : (round53 n < 2 ^ 1024)%Z).
  { rewrite Hexact. eapply Z.lt_trans; [exact Hlt|]. vm_compute. reflexivity. }
  rewrite format_size_parts, (size_parts_nonneg n H0 Hfit), Hexact.
  destruct (Z.ltb_spec n 1024); [|lia].
  unfold show_parts. cbn [bind_outcome fst snd mant].
  rewrite hundredths_of_integer, Z.abs_eq by done.
  destruct (Z.ltb_spec n 0); [lia|].
  rewrite (render_whole false n H0). f_equal.
  transitivity ((pretty n +:+ ".00") +:+ " B"); [reflexivity|].
  by rewrite append_assoc.
Qed.

Lemma format_size_bytes_witness : format_size 512 = Return "512.00 B".
Proof. apply (format_size_bytes 512). lia. Defined.

(** X18. A negative size is never scaled: the first test,
    [size_bytes < 1024.0], holds for it, so it is shown in bytes
    whatever its magnitude. *)
Theorem format_size_negative (n : Z) :
  (- 2 ^ 53 < n < 0)%Z → format_size n = Return ("-" +:+ pretty (- n)%Z +:+ ".00 B").
Proof.
  intros [Hlo Hneg].
  assert (Hexact : round53 (- n) = (- n)%Z) by (apply round53_exact; lia).
  assert (Hbig : (2 ^ 53 < 2 ^ 1024)%Z) by (vm_compute; reflexivity).
  assert (Hfit : (- n < 2 ^ 1024)%Z) by (eapply Z.lt_trans; [|exact Hbig]; lia).
  unfold format_size. cbn [format_size_loop lt_1024].
  destruct (Z.ltb_spec n 1024); [|lia].
  unfold format_2f, to_float, float_of_int.
  rewrite Z.abs_neq, Hexact by lia.
  destruct (Z.leb_spec (2 ^ 1024) (- n)); [lia|].
  cbn [bind_outcome mant].
  rewrite Z.sgn_neg by lia.
  replace (-1 * - n)%Z with n by lia.
  rewrite hundredths_of_integer, Z.abs_neq by lia.
  destruct (Z.ltb_spec n 0); [|lia].
  rewrite (render_whole true (- n)) by lia. f_equal.
  transitivity (("-" +:+ pretty (- n)%Z +:+ ".00") +:+ " B"); [reflexivity|].
  by rewrite !append_assoc.
Qed.

Lemma format_size_negative_witness :
  format_size (-5000000) = Return "-5000000.00 B".
Proof. apply (format_size_negative (-5000000)). lia. Defined.

Lemma hundredths_scaled_range (n e : Z) :
  (0 < e)%Z → (2 ^ e ≤ n ≤ 2 ^ (e + 10))%Z →
  (100 ≤ hundredths (Float n (- e)) ≤ 102400)%Z.
Proof.
  intros He [Hlo Hhi].
  assert (Hpow : (0 < 2 ^ e)%Z) by (apply Z.pow_pos_nonneg; lia).
  unfold hundredths. cbn [mant expo].
  destruct (Z.leb_spec 0 (- e)); [lia|].
  rewrite Z.opp_involutive, Z.abs_eq by lia.
  rewrite Z.pow_add_r in Hhi by lia. change (2 ^ 10)%Z with 1024%Z in Hhi.
  split.
  - rewrite <- (round_half_even_multiple 100 (2 ^ e) Hpow) at 1.
    apply round_half_even_mono; lia.
  - rewrite <- (round_half_even_multiple 102400 (2 ^ e) Hpow).
    apply round_half_even_mono; lia.
Qed.

(** X19. From KB to TB the number shown lies between 1.00 and 1024.00.
    The upper end is reached: one byte short of a mebibyte is shown as
    "1024.00 KB", the unit of the size and not the next one. *)
Theorem format_size_shown_range :
  (∀ n x unit,
     (1024 ≤ n < 2 ^ 50)%Z →
     size_parts n = Return (x, unit) →
     (100 ≤ hundredths x ≤ 102400)%Z)
  ∧ format_size (2 ^ 20 - 1) = Return "1024.00 KB".
Proof.
  split; [|vm_compute; reflexivity].
  intros n x unit [Hlo Hhi] Hparts.
  assert (Hexact : round53 n = n).
  { apply round53_exact. split; [lia|]. eapply Z.lt_trans; [exact Hhi|].
    vm_compute. reflexivity. }
  assert (Hfit : (round53 n < 2 ^ 1024)%Z).
  { rewrite Hexact. eapply Z.lt_trans; [exact Hhi|]. vm_compute. reflexivity. }
  rewrite (size_parts_nonneg n ltac:(lia) Hfit), Hexact in Hparts.
  destruct (Z.ltb_spec n 1024); [lia|].
  destruct (Z.ltb_spec n (2 ^ 20)).
  { simplify_eq. apply (hundredths_scaled_range n 10); [lia|].
    change (2 ^ 10)%Z with 1024%Z. change (10 + 10)%Z with 20%Z. lia. }
  destruct (Z.ltb_spec n (2 ^ 30)).
  { simplify_eq. apply (hundredths_scaled_range n 20); [lia|].
    change (20 + 10)%Z with 30%Z. lia. }
  destruct (Z.ltb_spec n (2 ^ 40)).
  { simplify_eq. apply (hundredths_scaled_range n 30); [lia|].
    change (30 + 10)%Z with 40%Z. lia. }
  destruct (Z.ltb_spec n (2 ^ 50)); [|lia].
  simplify_eq. apply (hundredths_scaled_range n 40); [lia|].
  change (40 + 10)%Z with 50%Z. lia.
Qed.

Lemma format_size_shown_range_witness :
  (100 ≤ hundredths (Float 1536 (-10)) ≤ 102400)%Z.
Proof.
  apply (proj1 format_size_shown_range 1536%Z _ "KB").
  - vm_compute. split; [discriminate | reflexivity].
  - reflexivity.
Defined.

(** ** Batch list parsing *)

Lemma strip_valid_line (t : string) :
  strip (MEGA_PREFIX +:+ t) = MEGA_PREFIX +:+ rstrip t.
Proof. destruct t as [|b [|c t]]; reflexivity. Qed.

(** X20. Every link of a parsed batch passes the link test and is not
    empty, so the batch loop never hands the download step anything the
    download command would have refused; and a batch never has more
    links than the file has lines. *)
Theorem parse_links_valid (lines : list string) :
  Forall (λ link, startswith link MEGA_PREFIX = true ∧ truthy link = true) (parse_links lines)
  ∧ (length (parse_links lines) ≤ length lines)%nat.
Proof.
  induction lines as [|line lines [IH1 IH2]]; [split; [constructor | done]|].
  cbn [parse_links].
  destruct (startswith line MEGA_PREFIX) eqn:Hline.
  - rewrite (valid_line_strip_truthy _ Hline). cbn [andb length]. split; [|lia].
    constructor; [|done]. split; [|by apply valid_line_strip_truthy].
    apply startswith_inv in Hline as [t ->].
    rewrite strip_valid_line. apply startswith_app.
  - rewrite andb_false_r. split; [done|]. cbn [length]. lia.
Qed.

(** X21. Parsing goes line by line: the batch of two lists put one after
    the other is the batch of the first followed by the batch of the
    second, so no line changes what is read from another. *)
Theorem parse_links_app (lines1 lines2 : list string) :
  parse_links (lines1 ++ lines2) = parse_links lines1 ++ parse_links lines2.
Proof.
  induction lines1 as [|line lines1 IH]; [done|].
  cbn [app parse_links].
  destruct (truthy (strip line) && startswith line MEGA_PREFIX); [|done].
  by rewrite IH.
Qed.

Lemma append_empty_r (s : string) : s +:+ "" = s.
Proof. induction s as [|c s IH]; [reflexivity|]. by rewrite append_cons, IH. Qed.

Lemma file_lines_from_concat (acc content : string) :
  foldr String.append "" (file_lines_from acc content) = acc +:+ content.
Proof.
  revert acc. induction content as [|c rest IH]; intros acc; cbn [file_lines_from].
  - destruct acc; [reflexivity|]. cbn [foldr]. reflexivity.
  - destruct (Ascii.eqb c (ascii_of_nat 10)) eqn:Hc.
    + apply Ascii.eqb_eq in Hc as ->. cbn [foldr]. rewrite IH.
      rewrite append_assoc. reflexivity.
    + rewrite IH, append_assoc. reflexivity.
Qed.

Lemma file_lines_from_nonempty (acc content : string) :
  Forall (λ line, line ≠ "") (file_lines_from acc content).
Proof.
  revert acc. induction content as [|c rest IH]; intros acc; cbn [file_lines_from].
  - destruct acc; [constructor | by repeat constructor].
  - destruct (Ascii.eqb c (ascii_of_nat 10)); [|apply IH].
    constructor; [|apply IH]. by destruct acc.
Qed.

(** Reading a file line by line loses nothing: the lines, put back
    together, are the text of the file, and no line is empty. *)
Lemma file_lines_round_trip (content : string) :
  foldr String.append "" (file_lines content) = content
  ∧ Forall (λ line, line ≠ "") (file_lines content).
Proof.
  split; [apply file_lines_from_concat | apply file_lines_from_nonempty].
Qed.

(** ** The batch loop when the chat fails *)

(** X22. The announcement of an item is sent outside any [try]: when it
    cannot be delivered, the exception leaves the loop at once.  This
    item and all that follow are not downloaded, there is no pause and
    no closing message. *)
Theorem batch_stops_when_announcement_fails env self update link rest w e :
  let links := link :: rest in
  let found := EvReplyText (found_text (length links)) in
  let announced := EvReplyText (announce_text 1 (length links)) in
  telegram env (trace w) found = None →
  telegram env (trace w ++ [found]) announced = Some e →
  run_batch env self update links w = (Raise e, record_all [found; announced] w).
Proof.
  intros links found announced Hfound Hann.
  unfold run_batch. cbn [links batch_loop].
  unfold mbind, M_bind, bind, reply_text, telegram_call.
  fold links found. rewrite Hfound. flat. fold announced. rewrite Hann. same_world.
Qed.

Lemma batch_stops_when_announcement_fails_witness :
  run_batch chat_dropping_env bot (owner_update "")
    ["https://mega.nz/file/AAA"; "https://mega.nz/file/BBB"] empty_world
  = (Raise "Network is unreachable",
     record_all [EvReplyText (found_text 2); EvReplyText "📥 Downloading 1/2..."]
       empty_world).
Proof.
  exact (batch_stops_when_announcement_fails chat_dropping_env bot (owner_update "")
           "https://mega.nz/file/AAA" ["https://mega.nz/file/BBB"] empty_world
           "Network is unreachable" eq_refl eq_refl).
Defined.
